(** * sheetcombine.py: the pitcher-statistics enrichment job

    A shallow embedding of [src/sheetcombine.py].  The script is a
    sequential batch job: it reads a schedule, resolves each probable
    pitcher to an identifier (memoised in the module-level dictionary
    [cache_player_ids]), retrieves nine pitching metrics with a bounded retry
    loop, assembles one flat row per game and overwrites a spreadsheet
    range.

    The remote collaborators (the statistics service and the spreadsheet
    service) are not part of the script, and neither is pandas' parser for
    the strings that are not plain decimals.  They are taken as an
    environment [env] of response functions; a response of a service may
    depend on everything the job did before (the trace of events), so the
    results hold for every deterministic behaviour of the services. *)

Set Warnings "-inexact-float".
From Stdlib Require Import ZArith String List Ascii PrimFloat FloatOps SpecFloat.
From stdpp Require Import gmap strings list.

Local Open Scope Z_scope.
Local Open Scope string_scope.
Local Open Scope list_scope.

(** ** Python values and exceptions *)

(** The values that travel through rows and statistics mappings. *)
Inductive pyval : Type :=
| VNone
| VInt (n : Z)
| VFloat (x : float)
| VStr (s : string).

(** The exceptions the script can meet.  [ServiceError] stands for whatever
    an external call raises. *)
Inductive exn : Type :=
| UnboundLocalError (var : string)
| KeyError (key : string)
| IndexError
| AttributeError (attr : string)
| ValueError
| ServiceError (msg : string).

Inductive result (A : Type) : Type :=
| Ok (a : A)
| Raise (e : exn).
Arguments Ok {A} a.
Arguments Raise {A} e.

(** The numbers pandas' parser produces: an integer or a float (NaN for
    what does not parse). *)
Inductive number : Type :=
| NInt (n : Z)
| NFloat (x : float).

(** ** Data model *)

(** One entry of the roster listing, [player['fullName']] and
    [player['id']]; [None] is a missing key. *)
Record player : Type := {
  fullName : option string;
  person_id : option Z
}.

(** One entry of [data['stats']]: its ['stats'] member is a mapping, or an
    object without a [get] method. *)
Inductive split : Type :=
| SplitStats (stats : gmap string pyval)
| SplitOpaque.

(** A scheduled game.  The pitcher names are read with
    [game.get(key, '')], so the key may be missing. *)
Record game : Type := {
  game_id : pyval;
  away_name : pyval;
  home_name : pyval;
  away_probable_pitcher : option string;
  home_probable_pitcher : option string
}.

(** What the script prints. *)
Inductive message : Type :=
| MsgPlayerIdError (player_name : string) (e : exn)
| MsgStatsError (player_id : Z) (attempt_number : Z) (e : exn)
| MsgCleared
| MsgClearFailed (e : exn)
| MsgUpdated
| MsgUpdateFailed (e : exn).

(** The observable actions of the job, in the order they happen. *)
Inductive event : Type :=
| EvSchedule (start_date end_date : string)
| EvRosterFetch (season : Z)
| EvStatsRequest (player_id season : Z)
| EvPrint (m : message)
| EvSleep (milliseconds : Z)
| EvBuildService
| EvClear (range : string)
| EvUpdate (range : string) (values : list (list pyval)).

(** The external collaborators.  Each response is a function of the trace
    of events that precede the call. *)
Record env : Type := {
  schedule : list event -> string -> string -> result (list game);
  sports_players : list event -> Z -> result (list player);
  player_stat_data : list event -> Z -> Z -> result (list split);
  build_service : list event -> result unit;
  values_clear : list event -> result unit;
  values_update : list event -> list (list pyval) -> result unit;
  to_numeric : string -> number
}.

(** The mutable state of a run: the module-level cache and the trace. *)
Record state : Type := {
  cache_player_ids : gmap string Z;
  trace : list event
}.

Definition initial_state : state :=
  {| cache_player_ids := ∅; trace := [] |}.

(** ** A state and exception monad *)

Definition M (A : Type) : Type := state -> result A * state.

Definition ret {A} (a : A) : M A := fun st => (Ok a, st).

Definition raise {A} (e : exn) : M A := fun st => (Raise e, st).

Definition bind {A B} (m : M A) (k : A -> M B) : M B :=
  fun st =>
    match m st with
    | (Ok a, st') => k a st'
    | (Raise e, st') => (Raise e, st')
    end.

(** [try: m except Exception as e: h e] *)
Definition try_except {A} (m : M A) (h : exn -> M A) : M A :=
  fun st =>
    match m st with
    | (Ok a, st') => (Ok a, st')
    | (Raise e, st') => h e st'
    end.

Declare Scope job_scope.
Delimit Scope job_scope with job.
Notation "x <- c ;; k" := (bind c (fun x => k))
  (at level 100, c at next level, right associativity) : job_scope.
Notation "c ;;; k" := (bind c (fun _ => k))
  (at level 100, k at level 200, right associativity) : job_scope.

(** Appending one event to the trace. *)
Definition log (ev : event) (st : state) : state :=
  {| cache_player_ids := cache_player_ids st; trace := trace st ++ [ev] |}.

Definition emit (ev : event) : M unit := fun st => (Ok tt, log ev st).

Definition print (m : message) : M unit := emit (EvPrint m).

Definition sleep (milliseconds : Z) : M unit := emit (EvSleep milliseconds).

(** Calling a collaborator: the request is recorded, the response is the
    environment's answer to the history before it. *)
Definition call {A} (ev : event) (response : list event -> result A) : M A :=
  fun st => (response (trace st), log ev st).

Definition cache_store (player_name : string) (i : Z) : M unit :=
  fun st =>
    (Ok tt, {| cache_player_ids := <[player_name := i]> (cache_player_ids st);
               trace := trace st |}).

(** ** pandas

    The frame is built, converted and read back by pandas.  What follows
    is its behaviour on the values of this model: the type it infers for
    a column, the parsing of plain decimal strings, and the handling of
    missing values. *)

Inductive dtype : Type := Int64 | Float64 | Object.

(** The float nearest to an integer. *)
Definition float_of_Z (n : Z) : float :=
  SF2Prim (binary_normalize prec emax n 0 false).

Definition digit_value (a : ascii) : option Z :=
  let n := Z.of_N (N_of_ascii a) in
  if Z.leb 48 n && Z.leb n 57 then Some (n - 48) else None.

Fixpoint digits_value (acc : Z) (s : string) : option Z :=
  match s with
  | EmptyString => Some acc
  | String a rest =>
      match digit_value a with
      | Some d => digits_value (10 * acc + d) rest
      | None => None
      end
  end.

(** The text before the first point, and the text after it if there is a
    point. *)
Fixpoint split_at_point (s : string) : string * option string :=
  match s with
  | EmptyString => (EmptyString, None)
  | String a rest =>
      if Ascii.eqb a "."%char then (EmptyString, Some rest)
      else let (whole, frac) := split_at_point rest in (String a whole, frac)
  end.

(** The parser on plain decimals of at most 15 digits: digits alone are an
    integer; digits, a point and digits are the float nearest to the
    quotient of the digits by the power of ten.  Every other string is
    left to the environment. *)
Definition plain_decimal (s : string) : option number :=
  let (whole, rest) := split_at_point s in
  match rest with
  | None =>
      if Nat.ltb 0 (String.length whole) && Nat.leb (String.length whole) 15
      then NInt <$> digits_value 0 whole
      else None
  | Some frac =>
      if Nat.ltb 0 (String.length whole) && Nat.ltb 0 (String.length frac)
         && Nat.leb (String.length whole + String.length frac) 15
      then (fun m => NFloat (float_of_Z m
                             / float_of_Z (10 ^ Z.of_nat (String.length frac))))
             <$> digits_value 0 (String.append whole frac)
      else None
  end.

Definition is_integer (r : number) : bool :=
  match r with NInt _ => true | NFloat _ => false end.

Definition is_str (v : pyval) : bool :=
  match v with VStr _ => true | _ => false end.

Definition is_int (v : pyval) : bool :=
  match v with VInt _ => true | _ => false end.

Definition is_none (v : pyval) : bool :=
  match v with VNone => true | _ => false end.

Definition is_object (t : dtype) : bool :=
  match t with Object => true | _ => false end.

Definition is_float64 (t : dtype) : bool :=
  match t with Float64 => true | _ => false end.

(** A cell that a spreadsheet cannot hold: [None] or NaN. *)
Definition is_missing (v : pyval) : bool :=
  match v with
  | VNone => true
  | VFloat x => is_nan x
  | _ => false
  end.

(** The type [pd.DataFrame] infers for a column of a list of rows: objects
    when a cell is a string or every cell is [None], integers when every
    cell is an integer, floats otherwise. *)
Definition inferred_dtype (col : list pyval) : dtype :=
  match col with
  | [] => Object
  | _ =>
      if existsb is_str col then Object
      else if forallb is_int col then Int64
      else if forallb is_none col then Object
      else Float64
  end.

(** A cell of a column of type [t]: in a column of floats an integer is
    its float and [None] is NaN. *)
Definition inferred_cell (t : dtype) (v : pyval) : pyval :=
  match t, v with
  | Float64, VInt n => VFloat (float_of_Z n)
  | Float64, VNone => VFloat nan
  | _, _ => v
  end.

(** The integers of [df.values] when its common type is float. *)
Definition widen (as_floats : bool) (v : pyval) : pyval :=
  match as_floats, v with
  | true, VInt n => VFloat (float_of_Z n)
  | _, _ => v
  end.

(** ** The job *)

Section Job.

Variable E : env.

(** [season = 2025] *)
Definition season : Z := 2025.

Local Open Scope job_scope.

(** *** Identifier resolver *)

(** The [for player in players] loop of [get_player_id]; [Some i] is the
    [return player['id']] inside the loop, [None] is the loop running to
    its end. *)
Fixpoint match_player (player_name : string) (players : list player)
  : M (option Z) :=
  match players with
  | [] => ret None
  | p :: rest =>
      match fullName p with
      | None => raise (KeyError "fullName")
      | Some n =>
          if decide (n = player_name) then
            match person_id p with
            | None => raise (KeyError "id")
            | Some i => cache_store player_name i ;;; ret (Some i)
            end
          else match_player player_name rest
      end
  end.

Definition get_player_id (player_name : string) (season : Z) : M (option Z) :=
  fun st =>
    match cache_player_ids st !! player_name with
    | Some i => ret (Some i) st
    | None =>
        try_except
          (players <- call (EvRosterFetch season) (fun h => sports_players E h season) ;;
           match_player player_name players)
          (fun e => print (MsgPlayerIdError player_name e) ;;; ret None)
          st
    end.

(** *** Statistics retriever *)

(** The nine metrics, in the order the row lists them.  The script writes
    this list three times (once in [get_player_stats], twice in
    [process_game_data]) with the same contents. *)
Definition relevant_keys : list string :=
  ["era"; "whip"; "strikeoutsPer9Inn"; "walksPer9Inn"; "hitsPer9Inn";
   "runsScoredPer9"; "homeRunsPer9"; "inningsPitched"; "gamesStarted"].

(** [d.get(key, dflt)] *)
Definition dict_get (d : gmap string pyval) (key : string) (dflt : pyval)
  : pyval :=
  default dflt (d !! key).

(** [{key: f(key) for key in keys}] *)
Definition dict_of (f : string -> pyval) (keys : list string)
  : gmap string pyval :=
  list_to_map (map (fun key => (key, f key)) keys).

(** The body of [get_player_stats] after [range(retries)] is evaluated.
    [keys] is the local variable [relevant_keys]: [None] while it is
    unassigned.  It is assigned inside the [try] block, after the request
    and after [data['stats'][0]['stats']] have been evaluated. *)
Fixpoint stats_attempts (player_id season : Z) (attempts : list Z)
    (keys : option (list string)) : M (gmap string pyval) :=
  match attempts with
  | [] =>
      match keys with
      | None => raise (UnboundLocalError "relevant_keys")
      | Some ks => ret (dict_of (fun _ => VStr "") ks)
      end
  | attempt :: rest =>
      let retry (e : exn) (keys' : option (list string)) :=
        print (MsgStatsError player_id (attempt + 1) e) ;;;
        sleep 2000 ;;;
        stats_attempts player_id season rest keys' in
      fun st =>
        match call (EvStatsRequest player_id season)
                   (fun h => player_stat_data E h player_id season) st with
        | (Raise e, st') => retry e keys st'
        | (Ok [], st') => retry IndexError keys st'
        | (Ok (SplitOpaque :: _), st') =>
            retry (AttributeError "get") (Some relevant_keys) st'
        | (Ok (SplitStats stats :: _), st') =>
            ret (dict_of (fun key => dict_get stats key (VStr "")) relevant_keys)
                st'
        end
  end.

(** [range(n)] *)
Definition range (n : Z) : list Z := seqZ 0 n.

Definition get_player_stats (player_id season retries : Z)
  : M (gmap string pyval) :=
  stats_attempts player_id season (range retries) None.

(** *** Schedule fetcher *)

Definition fetch_schedule (start_date end_date : string) : M (list game) :=
  call (EvSchedule start_date end_date)
       (fun h => schedule E h start_date end_date).

(** *** Row assembler *)

(** One side of a game: the block
    [if name: id = get_player_id(name, season); if id: stats = get_player_stats(id, season)]
    which the script writes once for the away and once for the home
    pitcher.  An identifier is falsy when it is [None] or [0]. *)
Definition pitcher_stats (pitcher_name : string) : M (gmap string pyval) :=
  if decide (pitcher_name = "") then ret ∅
  else
    pid <- get_player_id pitcher_name season ;;
    match pid with
    | None => ret ∅
    | Some i =>
        if decide (i = 0) then ret ∅ else get_player_stats i season 3
    end.

(** The list [row] once both statistics blocks are appended. *)
Definition build_row (g : game) (away_pitcher_name home_pitcher_name : string)
    (away_stats home_stats : gmap string pyval) : list pyval :=
  [game_id g; away_name g; home_name g;
   VStr away_pitcher_name; VStr home_pitcher_name]
  ++ map (fun key => dict_get away_stats key (VStr "")) relevant_keys
  ++ map (fun key => dict_get home_stats key (VStr "")) relevant_keys.

(** The body of the [for game in games] loop, up to [data.append(row)]. *)
Definition process_game (g : game) : M (list pyval) :=
  let away_pitcher_name := default "" (away_probable_pitcher g) in
  let home_pitcher_name := default "" (home_probable_pitcher g) in
  away_stats <- pitcher_stats away_pitcher_name ;;
  home_stats <- pitcher_stats home_pitcher_name ;;
  ret (build_row g away_pitcher_name home_pitcher_name away_stats home_stats).

Fixpoint process_games (games : list game) (data : list (list pyval))
  : M (list (list pyval)) :=
  match games with
  | [] => ret data
  | g :: rest =>
      row <- process_game g ;;
      sleep 500 ;;;
      process_games rest (data ++ [row])
  end.

Definition process_game_data (games : list game) : M (list (list pyval)) :=
  process_games games [].

(** *** Sheet writer *)

Definition clear_google_sheet_range : M unit :=
  try_except
    (call (EvClear "nrsi_confidence!A:W") (values_clear E) ;;;
     print MsgCleared)
    (fun e => print (MsgClearFailed e)).

Definition headers : list string :=
  ["Game ID"; "Away Team"; "Home Team"; "Away Pitcher"; "Home Pitcher";
   "Away ERA"; "Away WHIP"; "Away K/9"; "Away BB/9"; "Away H/9"; "Away R/9";
   "Away HR/9"; "Away IP"; "Away GS";
   "Home ERA"; "Home WHIP"; "Home K/9"; "Home BB/9"; "Home H/9"; "Home R/9";
   "Home HR/9"; "Home IP"; "Home GS"].

Definition numeric_columns : list string :=
  ["Away ERA"; "Away WHIP"; "Away K/9"; "Away BB/9"; "Away H/9"; "Away R/9";
   "Away HR/9"; "Away IP"; "Away GS";
   "Home ERA"; "Home WHIP"; "Home K/9"; "Home BB/9"; "Home H/9"; "Home R/9";
   "Home HR/9"; "Home IP"; "Home GS"].

(** [pd.DataFrame(data, columns=headers)], row by row: short rows are
    padded with missing values, and a frame whose widest row has not the
    width of the header is rejected. *)
Definition DataFrame (data : list (list pyval)) : M (list (list pyval)) :=
  match data with
  | [] => ret []
  | _ =>
      let width := foldr (fun row w => Nat.max (List.length row) w) 0%nat data in
      if decide (width = List.length headers) then
        ret (map (fun row => app row (replicate (width - List.length row) VNone))
                 data)
      else raise ValueError
  end.

(** [df.fillna("")] on one cell: a missing value becomes the empty
    string. *)
Definition fillna (v : pyval) : pyval :=
  match v with
  | VNone => VStr ""
  | VFloat x => if is_nan x then VStr "" else VFloat x
  | _ => v
  end.

(** The cells of column [c] of a frame. *)
Definition column (c : nat) (df : list (list pyval)) : list pyval :=
  map (fun row => default VNone (row !! c)) df.

(** [pd.to_numeric(errors='coerce')] on one cell of a column of objects:
    numbers are kept, a missing value and the empty string become NaN,
    any other string is parsed. *)
Definition number_of (v : pyval) : number :=
  match v with
  | VInt n => NInt n
  | VFloat x => NFloat x
  | VNone => NFloat nan
  | VStr s =>
      if decide (s = "") then NFloat nan
      else match plain_decimal s with
           | Some r => r
           | None => to_numeric E s
           end
  end.

(** The column under [header] after [to_numeric] on the numeric columns:
    its type, and what has become of the cell [v] of it.  A numeric column
    of objects becomes a column of integers when every cell parses to an
    integer, and a column of floats otherwise; the other columns keep the
    type the frame inferred. *)
Definition converted_dtype (header : string) (col : list pyval) : dtype :=
  match inferred_dtype col with
  | Object =>
      if decide (header ∈ numeric_columns) then
        if forallb (fun v => is_integer (number_of v)) col
        then Int64 else Float64
      else Object
  | t => t
  end.

Definition converted_cell (header : string) (col : list pyval) (v : pyval)
  : pyval :=
  match inferred_dtype col with
  | Object =>
      if decide (header ∈ numeric_columns) then
        match number_of v, converted_dtype header col with
        | NInt n, Int64 => VInt n
        | NInt n, _ => VFloat (float_of_Z n)
        | NFloat x, _ => VFloat x
        end
      else v
  | t => inferred_cell t v
  end.

(** The type of the column after [fillna("")]: a column of floats that
    held a NaN now holds a string. *)
Definition filled_dtype (header : string) (col : list pyval) : dtype :=
  match converted_dtype header col with
  | Float64 =>
      if existsb (fun v => is_missing (converted_cell header col v)) col
      then Object else Float64
  | t => t
  end.

(** [df.values] takes the common type of the columns: when no column
    holds objects and some column holds floats, the integers are
    floats in the result. *)
Definition values_are_floats (df : list (list pyval)) : bool :=
  forallb (fun ch => negb (is_object (filled_dtype ch.2 (column ch.1 df))))
          (zip (seq 0 (List.length headers)) headers)
  && existsb (fun ch => is_float64 (filled_dtype ch.2 (column ch.1 df)))
             (zip (seq 0 (List.length headers)) headers).

(** What the conversion steps do to the cell [v] of the column [col] under
    [header]: [to_numeric] on the numeric columns, [fillna] on every
    column, and the common type of [df.values].  The last two steps are
    applied here in the other order; they commute, since [fillna] leaves
    integers and the floats made of them alone. *)
Definition convert_cell (as_floats : bool) (header : string)
    (col : list pyval) (v : pyval) : pyval :=
  fillna (widen as_floats (converted_cell header col v)).

Definition convert_row (df : list (list pyval)) (row : list pyval)
  : list pyval :=
  zip_with (fun ch v => convert_cell (values_are_floats df) ch.2
                          (column ch.1 df) v)
           (zip (seq 0 (List.length headers)) headers) row.

(** [[df.columns.tolist()] + df.values.tolist()] *)
Definition sheet_values (df : list (list pyval)) : list (list pyval) :=
  map VStr headers :: map (convert_row df) df.

Definition write_to_google_sheets (data : list (list pyval)) : M unit :=
  call EvBuildService (build_service E) ;;;
  clear_google_sheet_range ;;;
  df <- DataFrame data ;;
  let values := sheet_values df in
  try_except
    (call (EvUpdate "nrsi_confidence!A1" values)
          (fun h => values_update E h values) ;;;
     print MsgUpdated)
    (fun e => print (MsgUpdateFailed e)).

(** *** Main execution *)

Definition main (start_date end_date : string) : M unit :=
  games <- fetch_schedule start_date end_date ;;
  enriched_data <- process_game_data games ;;
  write_to_google_sheets enriched_data.

End Job.

(** ** Reading traces *)

Definition is_roster_fetch (ev : event) : bool :=
  match ev with EvRosterFetch _ => true | _ => false end.

Definition is_stats_request (ev : event) : bool :=
  match ev with EvStatsRequest _ _ => true | _ => false end.

Definition is_sheet_call (ev : event) : bool :=
  match ev with EvClear _ | EvUpdate _ _ => true | _ => false end.

Definition count_events (p : event -> bool) (t : list event) : nat :=
  List.length (List.filter p t).

Definition roster_fetches (t : list event) : nat :=
  count_events is_roster_fetch t.

Definition stats_requests (t : list event) : nat :=
  count_events is_stats_request t.

(** ** Concrete environments

    Services that answer every request the same way, used to run the job
    on explicit inputs. *)

(** A parser for the strings that are not plain decimals: it accepts
    none of them. *)
Definition no_other_number (s : string) : number := NFloat nan.

Definition constant_env (roster : result (list player))
    (stats : result (list split)) (clear update : result unit) : env :=
  {| schedule := fun _ _ _ => Ok [];
     sports_players := fun _ _ => roster;
     player_stat_data := fun _ _ _ => stats;
     build_service := fun _ => Ok tt;
     values_clear := fun _ => clear;
     values_update := fun _ _ => update;
     to_numeric := no_other_number |}.

Definition roster_2025 : list player :=
  [ {| fullName := Some "Gerrit Cole"; person_id := Some 543037 |};
    {| fullName := Some "Zack Wheeler"; person_id := Some 554430 |} ].

Definition healthy_env : env :=
  constant_env (Ok roster_2025)
    (Ok [SplitStats (<["era" := VStr "3.45"]> (<["gamesStarted" := VInt 12]> ∅))])
    (Ok tt) (Ok tt).

(** The statistics service is unreachable. *)
Definition offline_env : env :=
  constant_env (Raise (ServiceError "connection refused"))
               (Raise (ServiceError "connection refused")) (Ok tt) (Ok tt).

(** The roster lists nobody and no player has statistics. *)
Definition empty_env : env :=
  constant_env (Ok []) (Ok []) (Ok tt) (Ok tt).

(** The roster is served, but every statistics request fails. *)
Definition stats_down_env : env :=
  constant_env (Ok roster_2025) (Raise (ServiceError "connection refused"))
               (Ok tt) (Ok tt).

(** The roster is served, and the pitcher has no statistics for the season:
    [data['stats']] is the empty list. *)
Definition no_stats_env : env :=
  constant_env (Ok roster_2025) (Ok []) (Ok tt) (Ok tt).

(** The first two statistics requests of a run fail, the later ones are
    served. *)
Definition flaky_env : env :=
  {| schedule := fun _ _ _ => Ok [];
     sports_players := fun _ _ => Ok roster_2025;
     player_stat_data := fun h _ _ =>
       if (stats_requests h <? 2)%nat
       then Raise (ServiceError "timed out")
       else Ok [SplitStats (<["era" := VStr "3.45"]> ∅)];
     build_service := fun _ => Ok tt;
     values_clear := fun _ => Ok tt;
     values_update := fun _ _ => Ok tt;
     to_numeric := no_other_number |}.

(** The spreadsheet service rejects the range-clear call. *)
Definition clear_fails_env : env :=
  constant_env (Ok roster_2025) (Ok []) (Raise (ServiceError "HttpError 403"))
               (Ok tt).

(** The spreadsheet service rejects the range-write call. *)
Definition update_fails_env : env :=
  constant_env (Ok roster_2025) (Ok []) (Ok tt)
               (Raise (ServiceError "HttpError 403")).

(** Games for the examples. *)
Definition opening_day : game :=
  {| game_id := VInt 778563;
     away_name := VStr "Milwaukee Brewers";
     home_name := VStr "New York Yankees";
     away_probable_pitcher := Some "Zack Wheeler";
     home_probable_pitcher := Some "Gerrit Cole" |}.

Definition away_unannounced : game :=
  {| game_id := VInt 778564;
     away_name := VStr "Milwaukee Brewers";
     home_name := VStr "New York Yankees";
     away_probable_pitcher := None;
     home_probable_pitcher := Some "Gerrit Cole" |}.

Definition home_unannounced : game :=
  {| game_id := VInt 778565;
     away_name := VStr "Milwaukee Brewers";
     home_name := VStr "New York Yankees";
     away_probable_pitcher := Some "Zack Wheeler";
     home_probable_pitcher := Some "" |}.

(** An assembled row: the away pitcher has an ERA of 3.45 and 12 starts,
    the home pitcher has not pitched yet and the service reports the ERA
    as ["-.--"]. *)
Definition sample_row : list pyval :=
  [VInt 778563; VStr "Milwaukee Brewers"; VStr "New York Yankees";
   VStr "Zack Wheeler"; VStr "Gerrit Cole";
   VStr "3.45"; VStr ""; VStr ""; VStr ""; VStr ""; VStr ""; VStr "";
   VStr ""; VInt 12;
   VStr "-.--"; VStr ""; VStr ""; VStr ""; VStr ""; VStr ""; VStr "";
   VStr ""; VInt 0].

(** ** Outcomes *)

(** The four ways a call [get_player_id(player_name, s)] can go from
    state [st]: answered from the cache, matched in the fetched roster, not
    matched, or interrupted by an exception inside the [try] block. *)
Inductive resolution (player_name : string) (s : Z) (st : state)
  : option Z -> state -> Prop :=
| res_hit i :
    cache_player_ids st !! player_name = Some i ->
    resolution player_name s st (Some i) st
| res_match i :
    cache_player_ids st !! player_name = None ->
    resolution player_name s st (Some i)
      {| cache_player_ids := <[player_name := i]> (cache_player_ids st);
         trace := trace st ++ [EvRosterFetch s] |}
| res_no_match :
    cache_player_ids st !! player_name = None ->
    resolution player_name s st None (log (EvRosterFetch s) st)
| res_error e :
    cache_player_ids st !! player_name = None ->
    resolution player_name s st None
      (log (EvPrint (MsgPlayerIdError player_name e))
           (log (EvRosterFetch s) st)).

(** A response to a statistics request that makes the attempt fail before
    the local variable [relevant_keys] is assigned: the request raises, or
    [data['stats']] is empty. *)
Definition fails_early (response : result (list split)) : Prop :=
  match response with
  | Raise _ | Ok [] => True
  | Ok (_ :: _) => False
  end.

(** The message printed after the range-clear call and after the
    range-write call, by the response. *)
Definition clear_message (response : result unit) : message :=
  match response with Ok _ => MsgCleared | Raise e => MsgClearFailed e end.

Definition update_message (response : result unit) : message :=
  match response with Ok _ => MsgUpdated | Raise e => MsgUpdateFailed e end.

(** The part of a trace that follows the first logged spreadsheet
    failure. *)
Definition is_sheet_failure (ev : event) : bool :=
  match ev with
  | EvPrint (MsgClearFailed _) | EvPrint (MsgUpdateFailed _) => true
  | _ => false
  end.

Fixpoint after_first_failure (t : list event) : list event :=
  match t with
  | [] => []
  | ev :: rest => if is_sheet_failure ev then rest else after_first_failure rest
  end.

(** "No destination call is made after a destination failure." *)
Definition stops_after_failure (t : list event) : Prop :=
  count_events is_sheet_call (after_first_failure t) = 0%nat.

(** A pitcher name that is absent from a game: the key is missing, or the
    name is the empty string. *)
Definition absent (pitcher_name : option string) : Prop :=
  pitcher_name = None \/ pitcher_name = Some "".

(** The exception that escapes [get_player_stats]; no other exception
    leaves the enrichment loop. *)
Definition escapes {A} (r : result A) : Prop :=
  match r with
  | Ok _ => True
  | Raise e => e = UnboundLocalError "relevant_keys"
  end.

(** A roster entry that carries a name other than [player_name]. *)
Definition other_name (player_name : string) (p : player) : Prop :=
  exists n, fullName p = Some n /\ n <> player_name.

(** A roster entry with both keys. *)
Definition well_formed (p : player) : Prop :=
  is_Some (fullName p) /\ is_Some (person_id p).

(** The services of a run over a schedule [games], with the statistics
    answer [stats] for every player. *)
Definition scheduled_env (games : result (list game))
    (stats : result (list split)) (build : result unit) : env :=
  {| schedule := fun _ _ _ => games;
     sports_players := fun _ _ => Ok roster_2025;
     player_stat_data := fun _ _ _ => stats;
     build_service := fun _ => build;
     values_clear := fun _ => Ok tt;
     values_update := fun _ _ => Ok tt;
     to_numeric := no_other_number |}.

(** Two games, and statistics for every pitcher. *)
Definition two_games_env : env :=
  scheduled_env (Ok [opening_day; away_unannounced])
    (Ok [SplitStats (<["era" := VStr "3.45"]> ∅)]) (Ok tt).

(** One game, whose pitchers have no statistics yet. *)
Definition debut_env : env :=
  scheduled_env (Ok [opening_day]) (Ok []) (Ok tt).

(** The schedule request fails. *)
Definition schedule_down_env : env :=
  scheduled_env (Raise (ServiceError "connection refused")) (Ok []) (Ok tt).

(** The credentials file is missing. *)
Definition no_credentials_env : env :=
  scheduled_env (Ok []) (Ok []) (Raise (ServiceError "FileNotFoundError")).

(** A roster whose first entry has lost its name. *)
Definition nameless_entry_env : env :=
  constant_env
    (Ok ({| fullName := None; person_id := Some 660271 |} :: roster_2025))
    (Ok []) (Ok tt) (Ok tt).

(** A roster in which the wanted player has lost the identifier. *)
Definition no_identifier_env : env :=
  constant_env
    (Ok [ {| fullName := Some "Zack Wheeler"; person_id := Some 554430 |};
          {| fullName := Some "Gerrit Cole"; person_id := None |};
          {| fullName := Some "Gerrit Cole"; person_id := Some 543037 |} ])
    (Ok []) (Ok tt) (Ok tt).

(** ** Date entry

    [get_valid_date] runs before the job, once for each of the two dates.
    The conversion
    [datetime.strptime(user_input, "%d/%m/%Y").strftime("%m/%d/%Y")]
    belongs to the standard library; it is taken as a function [convert]
    that gives the reformatted date, or [None] where [strptime] raises
    [ValueError].  Standard input is the list of the lines still to be
    read; on an exhausted input [input] raises [EOFError], which the loop
    does not catch. *)

Inductive console_event : Type :=
| ConsoleInput (prompt : string)
| ConsoleInvalid.

Inductive date_entry : Type :=
| DateEntered (date : string) (unread : list string)
| EndOfInput.

Fixpoint get_valid_date (convert : string -> option string) (prompt : string)
    (stdin : list string) : date_entry * list console_event :=
  match stdin with
  | [] => (EndOfInput, [ConsoleInput (String.append prompt " (DD/MM/YYYY): ")])
  | user_input :: rest =>
      match convert user_input with
      | Some date =>
          (DateEntered date rest,
           [ConsoleInput (String.append prompt " (DD/MM/YYYY): ")])
      | None =>
          let (entry, console) := get_valid_date convert prompt rest in
          (entry,
           ConsoleInput (String.append prompt " (DD/MM/YYYY): ")
             :: ConsoleInvalid :: console)
      end
  end.

(** [start_date = get_valid_date("Enter the start date")] followed by
    [end_date = get_valid_date("Enter the end date")]. *)
Definition enter_dates (convert : string -> option string)
    (stdin : list string)
  : option (string * string * list string) * list console_event :=
  match get_valid_date convert "Enter the start date" stdin with
  | (EndOfInput, console) => (None, console)
  | (DateEntered start_date rest, console) =>
      match get_valid_date convert "Enter the end date" rest with
      | (EndOfInput, console') => (None, console ++ console')
      | (DateEntered end_date unread, console') =>
          (Some (start_date, end_date, unread), console ++ console')
      end
  end.

(** What the console shows for the lines [rejected] before the next
    prompt. *)
Definition rejections (prompt : string) (rejected : list string)
  : list console_event :=
  flat_map (fun _ => [ConsoleInput (String.append prompt " (DD/MM/YYYY): ");
                      ConsoleInvalid]) rejected.

(** A converter for the examples: it knows two dates. *)
Definition example_convert (user_input : string) : option string :=
  if decide (user_input = "27/03/2025") then Some "03/27/2025"
  else if decide (user_input = "28/03/2025") then Some "03/28/2025"
  else None.

(** ** More ways to read traces *)

Definition is_stats_error (ev : event) : bool :=
  match ev with EvPrint (MsgStatsError _ _ _) => true | _ => false end.

(** The two-second wait after a failed statistics request. *)
Definition is_backoff (ev : event) : bool :=
  match ev with EvSleep ms => Z.eqb ms 2000 | _ => false end.

(** The half-second pause after each game. *)
Definition is_pause (ev : event) : bool :=
  match ev with EvSleep ms => Z.eqb ms 500 | _ => false end.

(** The events [get_player_stats] can add. *)
Definition is_retriever_event (ev : event) : bool :=
  is_stats_request ev || is_stats_error ev || is_backoff ev.

(** The events the two lookups of a game can add. *)
Definition is_lookup_event (ev : event) : bool :=
  match ev with
  | EvRosterFetch _ | EvStatsRequest _ _ => true
  | EvPrint (MsgPlayerIdError _ _) | EvPrint (MsgStatsError _ _ _) => true
  | EvSleep ms => Z.eqb ms 2000
  | _ => false
  end.

(** A bound on what a stretch of the enrichment adds to the trace: at
    most [r] roster requests and [s] statistics requests, and no
    spreadsheet call. *)
Definition enrichment_within (r s : nat) (new : list event) : Prop :=
  (roster_fetches new <= r)%nat /\
  (stats_requests new <= s)%nat /\
  count_events is_sheet_call new = 0%nat.

(** From [st] to [st'] the events [new] were added, and every cache entry
    was kept. *)
Definition grows (st st' : state) (new : list event) : Prop :=
  trace st' = trace st ++ new /\
  cache_player_ids st ⊆ cache_player_ids st'.

(** ** Properties of the identifier resolver *)

Lemma count_events_app (p : event -> bool) (t u : list event) :
  count_events p (t ++ u) = (count_events p t + count_events p u)%nat.
Proof. unfold count_events. rewrite List.filter_app. apply length_app. Qed.

Section Resolver.

Variable E : env.

Lemma match_player_state (player_name : string) (players : list player)
    (st : state) :
  match match_player player_name players st with
  | (Ok (Some i), st') =>
      st' = {| cache_player_ids := <[player_name := i]> (cache_player_ids st);
               trace := trace st |}
  | (_, st') => st' = st
  end.
Proof.
  induction players as [|p rest IH]; simpl; [reflexivity|].
  destruct (fullName p) as [n|]; [|reflexivity].
  destruct (decide (n = player_name)); [|exact IH].
  destruct (person_id p); reflexivity.
Qed.

Lemma match_player_found (player_name : string)
    (before after : list player) (p : player) (i : Z) (st : state) :
  Forall (other_name player_name) before ->
  fullName p = Some player_name ->
  person_id p = Some i ->
  match_player player_name (before ++ p :: after) st
  = (Ok (Some i),
     {| cache_player_ids := <[player_name := i]> (cache_player_ids st);
        trace := trace st |}).
Proof.
  intros Hbefore Hname Hid.
  induction Hbefore as [|q before [n [Hq Hne]] _ IH]; simpl.
  - rewrite Hname, Hid. destruct (decide (player_name = player_name)); [|done].
    reflexivity.
  - rewrite Hq. destruct (decide (n = player_name)); [done|]. exact IH.
Qed.

Lemma match_player_absent (player_name : string) (players : list player)
    (st : state) :
  Forall (other_name player_name) players ->
  match_player player_name players st = (Ok None, st).
Proof.
  induction 1 as [|q rest [n [Hq Hne]] _ IH]; simpl; [reflexivity|].
  rewrite Hq. destruct (decide (n = player_name)); [done|]. exact IH.
Qed.

(** In a well-formed roster that lists [player_name], some entry is the
    first to carry that name. *)
Lemma first_match (player_name : string) (players : list player) :
  Forall well_formed players ->
  (exists p, p ∈ players /\ fullName p = Some player_name) ->
  exists before p after i,
    players = before ++ p :: after /\
    Forall (other_name player_name) before /\
    fullName p = Some player_name /\ person_id p = Some i.
Proof.
  induction 1 as [|q rest [[n Hn] [j Hj]] _ IH]; intros [p [Hin Hp]].
  - inversion Hin.
  - destruct (decide (n = player_name)) as [->|Hne].
    + exists [], q, rest, j. repeat split; [constructor|done..].
    + destruct IH as (before & p' & after & i & -> & Hb & Hp' & Hi).
      { exists p. split; [|exact Hp].
        apply elem_of_cons in Hin as [->|Hin]; [congruence|exact Hin]. }
      exists (q :: before), p', after, i.
      repeat split; [|done..]. constructor; [by exists n|exact Hb].
Qed.

Lemma get_player_id_hit (player_name : string) (s i : Z) (st : state) :
  cache_player_ids st !! player_name = Some i ->
  get_player_id E player_name s st = (Ok (Some i), st).
Proof. intros H. unfold get_player_id. rewrite H. reflexivity. Qed.

(** On a cache miss the roster is requested once, and the outcome of the
    [try] block decides the rest. *)
Lemma get_player_id_miss (player_name : string) (s : Z) (st : state) :
  cache_player_ids st !! player_name = None ->
  get_player_id E player_name s st =
  match sports_players E (trace st) s with
  | Raise e =>
      (Ok None, log (EvPrint (MsgPlayerIdError player_name e))
                    (log (EvRosterFetch s) st))
  | Ok players =>
      match match_player player_name players (log (EvRosterFetch s) st) with
      | (Ok r, st') => (Ok r, st')
      | (Raise e, st') =>
          (Ok None, log (EvPrint (MsgPlayerIdError player_name e)) st')
      end
  end.
Proof.
  intros H. unfold get_player_id. rewrite H.
  unfold try_except, bind, call, print, emit, ret.
  destruct (sports_players E (trace st) s) as [players|e]; [|reflexivity].
  destruct (match_player player_name players (log (EvRosterFetch s) st))
    as [[r|e] st']; reflexivity.
Qed.

(** [get_player_id] always returns, in one of the four ways of
    [resolution]. *)
Lemma get_player_id_resolution (player_name : string) (s : Z) (st : state) :
  exists r st',
    get_player_id E player_name s st = (Ok r, st') /\
    resolution player_name s st r st'.
Proof.
  destruct (cache_player_ids st !! player_name) as [i|] eqn:Hc.
  - exists (Some i), st. split; [by apply get_player_id_hit|by constructor].
  - rewrite (get_player_id_miss _ _ _ Hc).
    destruct (sports_players E (trace st) s) as [players|e].
    + pose proof (match_player_state player_name players
                    (log (EvRosterFetch s) st)) as Hm.
      destruct (match_player player_name players (log (EvRosterFetch s) st))
        as [[[i|]|e] st']; subst st'; eexists _, _; (split; [reflexivity|]).
      * by apply res_match.
      * by apply res_no_match.
      * by apply res_error.
    + eexists _, _. split; [reflexivity|]. by apply res_error.
Qed.

Lemma get_player_id_inv (player_name : string) (s : Z) (st : state)
    (r : result (option Z)) (st' : state) :
  get_player_id E player_name s st = (r, st') ->
  exists o, r = Ok o /\ resolution player_name s st o st'.
Proof.
  intros H.
  destruct (get_player_id_resolution player_name s st) as (o & st1 & Heq & Hr).
  rewrite Heq in H. injection H as <- <-. by exists o.
Qed.

Lemma resolution_cached (player_name : string) (s i : Z) (st st' : state) :
  resolution player_name s st (Some i) st' ->
  cache_player_ids st' !! player_name = Some i.
Proof.
  inversion 1; subst; [done|]. simpl. apply lookup_insert_eq.
Qed.

Lemma resolution_none (player_name : string) (s : Z) (st st' : state) :
  resolution player_name s st None st' ->
  cache_player_ids st !! player_name = None /\
  cache_player_ids st' = cache_player_ids st /\
  roster_fetches (trace st') = S (roster_fetches (trace st)).
Proof.
  unfold roster_fetches.
  inversion 1; subst; simpl; repeat split; try done;
    rewrite ?count_events_app; unfold count_events; simpl; lia.
Qed.

Lemma resolution_miss_fetches (player_name : string) (s : Z) (o : option Z)
    (st st' : state) :
  cache_player_ids st !! player_name = None ->
  resolution player_name s st o st' ->
  roster_fetches (trace st') = S (roster_fetches (trace st)).
Proof.
  unfold roster_fetches.
  intros Hmiss; inversion 1; subst; simpl; try congruence;
    rewrite ?count_events_app; unfold count_events; simpl; lia.
Qed.

Lemma resolution_fetches (player_name : string) (s : Z) (o : option Z)
    (st st' : state) :
  resolution player_name s st o st' ->
  (roster_fetches (trace st') <= S (roster_fetches (trace st)))%nat.
Proof.
  unfold roster_fetches.
  inversion 1; subst; simpl; rewrite ?count_events_app;
    unfold count_events; simpl; lia.
Qed.

(** C9: the cache is keyed by the player name alone.  A name present in
    the cache is answered with the cached identifier for every season,
    without touching the state; hence an identifier resolved under one
    season is returned unchanged when the name is asked for under another
    season. *)
Theorem cache_ignores_season (player_name : string) (st : state) :
  (forall i s, cache_player_ids st !! player_name = Some i ->
     get_player_id E player_name s st = (Ok (Some i), st)) /\
  (forall s s' i st',
     get_player_id E player_name s st = (Ok (Some i), st') ->
     get_player_id E player_name s' st' = (Ok (Some i), st')).
Proof.
  split.
  - intros i s H. exact (get_player_id_hit player_name s i st H).
  - intros s s' i st' H.
    apply get_player_id_hit.
    apply get_player_id_inv in H as (o & [= <-] & Hr).
    exact (resolution_cached _ _ _ _ _ Hr).
Qed.

(** C10: the cache gains an entry only on a successful roster match.  A
    call that returns [None] (no match, or an exception inside the [try]
    block) leaves the cache as it was; a call that returns an identifier
    leaves the cache with that identifier under the name; and every entry
    found in the cache after a call was there before or is the identifier
    just returned, so no name is ever bound to a missing identifier. *)
Theorem cache_gains_only_matches (player_name : string) (s : Z)
    (st st' : state) (r : result (option Z)) :
  get_player_id E player_name s st = (r, st') ->
  (r = Ok None -> cache_player_ids st' = cache_player_ids st) /\
  (forall i, r = Ok (Some i) ->
     cache_player_ids st' = <[player_name := i]> (cache_player_ids st)) /\
  (forall k v, cache_player_ids st' !! k = Some v ->
     cache_player_ids st !! k = Some v \/
     (k = player_name /\ r = Ok (Some v))).
Proof.
  intros H. apply get_player_id_inv in H as (o & -> & Hr).
  inversion Hr; subst; simpl; repeat split; try done.
  - intros j [= <-]. symmetry. by apply insert_id.
  - intros k v Hk. by left.
  - by intros j [= <-].
  - intros k v Hk. destruct (decide (player_name = k)) as [<-|Hne].
    + rewrite lookup_insert_eq in Hk. injection Hk as <-. by right.
    + rewrite lookup_insert_ne in Hk by done. by left.
  - intros k v Hk. by left.
  - intros k v Hk. by left.
Qed.

(** The outcomes of [get_player_id] on a well-formed roster.  On a cache
    miss it requests the roster once: if the roster is well formed and
    lists the name, the identifier of the first entry with that name is
    returned (and cached); if no entry carries the name, [None] is
    returned; if the request raises, the error is printed, [None] is
    returned and no second request is made. *)
Theorem get_player_id_outcomes (player_name : string) (s : Z) (st : state) :
  (exists o st', get_player_id E player_name s st = (Ok o, st')) /\
  (cache_player_ids st !! player_name = None ->
   (forall players,
      sports_players E (trace st) s = Ok players ->
      Forall well_formed players ->
      (exists p, p ∈ players /\ fullName p = Some player_name) ->
      exists before p after i,
        players = before ++ p :: after /\
        Forall (other_name player_name) before /\
        fullName p = Some player_name /\ person_id p = Some i /\
        get_player_id E player_name s st
        = (Ok (Some i),
           {| cache_player_ids := <[player_name := i]> (cache_player_ids st);
              trace := trace st ++ [EvRosterFetch s] |})) /\
   (forall players,
      sports_players E (trace st) s = Ok players ->
      Forall (other_name player_name) players ->
      get_player_id E player_name s st
      = (Ok None, log (EvRosterFetch s) st)) /\
   (forall e,
      sports_players E (trace st) s = Raise e ->
      get_player_id E player_name s st
      = (Ok None,
         {| cache_player_ids := cache_player_ids st;
            trace := trace st ++ [EvRosterFetch s;
                                  EvPrint (MsgPlayerIdError player_name e)] |}))).
Proof.
  split.
  - destruct (get_player_id_resolution player_name s st) as (o & st' & H & _).
    by exists o, st'.
  - intros Hmiss. rewrite (get_player_id_miss _ _ _ Hmiss). repeat split.
    + intros players -> Hwf Hin.
      destruct (first_match player_name players Hwf Hin)
        as (before & p & after & i & -> & Hb & Hp & Hi).
      exists before, p, after, i. repeat split; try done.
      by rewrite (match_player_found _ _ _ _ i _ Hb Hp Hi).
    + intros players -> Hall. by rewrite match_player_absent.
    + intros e ->. unfold log. simpl. by rewrite <- app_assoc.
Qed.

(** C2, as the code has it: of two calls with the same name, the second
    is served from the cache exactly when the first returned an
    identifier; the two calls then make at most one roster request.  When
    the first call returned [None], the second requests the roster again:
    two requests in all. *)
Theorem second_lookup_cached_after_match (player_name : string) (s1 s2 : Z)
    (st st1 st2 : state) (r1 r2 : result (option Z)) :
  get_player_id E player_name s1 st = (r1, st1) ->
  get_player_id E player_name s2 st1 = (r2, st2) ->
  (forall i, r1 = Ok (Some i) ->
     r2 = Ok (Some i) /\ st2 = st1 /\
     (roster_fetches (trace st2) <= roster_fetches (trace st) + 1)%nat) /\
  (r1 = Ok None ->
     roster_fetches (trace st2) = (roster_fetches (trace st) + 2)%nat).
Proof.
  intros H1 H2.
  apply get_player_id_inv in H1 as (o1 & -> & Hr1). split.
  - intros i [= ->].
    rewrite (get_player_id_hit _ _ i) in H2
      by exact (resolution_cached _ _ _ _ _ Hr1).
    injection H2 as <- <-. repeat split.
    pose proof (resolution_fetches _ _ _ _ _ Hr1). lia.
  - intros [= ->].
    apply get_player_id_inv in H2 as (o2 & -> & Hr2).
    apply resolution_none in Hr1 as (Hmiss & Hcache & Hn1).
    rewrite <- Hcache in Hmiss.
    pose proof (resolution_miss_fetches _ _ _ _ _ Hmiss Hr2). lia.
Qed.

Lemma match_player_some_inv (player_name : string) (players : list player)
    (st st' : state) (i : Z) :
  match_player player_name players st = (Ok (Some i), st') ->
  exists before p after,
    players = before ++ p :: after /\
    Forall (other_name player_name) before /\
    fullName p = Some player_name /\ person_id p = Some i.
Proof.
  induction players as [|q rest IH]; simpl; [discriminate|].
  destruct (fullName q) as [n|] eqn:Hq; [|discriminate].
  destruct (decide (n = player_name)) as [->|Hne].
  - destruct (person_id q) as [j|] eqn:Hj; [|discriminate].
    intros [= <- _]. exists [], q, rest. repeat split; [constructor|done..].
  - intros H. destruct (IH H) as (before & p & after & -> & Hb & Hp & Hi).
    exists (q :: before), p, after. repeat split; [|done..].
    constructor; [by exists n|exact Hb].
Qed.

(** C6, as the code has it.  [get_player_id] never raises.  On a cache
    miss it requests the roster once and returns the identifier [i]
    exactly when some entry carries the name and [i], and every entry
    before it carries another name: the first entry with the name decides,
    and an entry without its name before it, or the missing identifier of
    that entry, ends the search.  In every other case it returns [None].
    Returning an identifier adds the roster request to the trace and the
    pair to the cache; returning [None] leaves the cache alone; a request
    that raises is printed, and no second request is made. *)
Theorem get_player_id_first_match (player_name : string) (s : Z)
    (st : state) :
  (exists o st', get_player_id E player_name s st = (Ok o, st')) /\
  (cache_player_ids st !! player_name = None ->
   (forall players,
      sports_players E (trace st) s = Ok players ->
      (forall i,
         fst (get_player_id E player_name s st) = Ok (Some i) <->
         exists before p after,
           players = before ++ p :: after /\
           Forall (other_name player_name) before /\
           fullName p = Some player_name /\ person_id p = Some i) /\
      (forall i,
         fst (get_player_id E player_name s st) = Ok (Some i) ->
         snd (get_player_id E player_name s st)
         = {| cache_player_ids := <[player_name := i]> (cache_player_ids st);
              trace := trace st ++ [EvRosterFetch s] |}) /\
      (fst (get_player_id E player_name s st) = Ok None ->
       cache_player_ids (snd (get_player_id E player_name s st))
       = cache_player_ids st /\
       roster_fetches (trace (snd (get_player_id E player_name s st)))
       = S (roster_fetches (trace st)))) /\
   (forall e,
      sports_players E (trace st) s = Raise e ->
      get_player_id E player_name s st
      = (Ok None,
         {| cache_player_ids := cache_player_ids st;
            trace := trace st ++ [EvRosterFetch s;
                                  EvPrint (MsgPlayerIdError player_name e)] |}))).
Proof.
  split.
  - destruct (get_player_id_resolution player_name s st) as (o & st' & H & _).
    by exists o, st'.
  - intros Hmiss. split.
    + intros players Hroster.
      assert (forall i,
        fst (get_player_id E player_name s st) = Ok (Some i) ->
        match_player player_name players (log (EvRosterFetch s) st)
        = (Ok (Some i),
           {| cache_player_ids := <[player_name := i]> (cache_player_ids st);
              trace := trace st ++ [EvRosterFetch s] |})) as Hback.
      { intros i. rewrite (get_player_id_miss _ _ _ Hmiss), Hroster.
        pose proof (match_player_state player_name players
                      (log (EvRosterFetch s) st)) as Hm.
        destruct (match_player player_name players (log (EvRosterFetch s) st))
          as [[[j|]|e] st']; simpl; try discriminate.
        intros [= ->]. by rewrite Hm. }
      repeat split.
      * intros Hsome. exact (match_player_some_inv _ _ _ _ _ (Hback i Hsome)).
      * intros (before & p & after & -> & Hb & Hp & Hi).
        rewrite (get_player_id_miss _ _ _ Hmiss), Hroster.
        by rewrite (match_player_found _ _ _ _ i _ Hb Hp Hi).
      * intros i Hsome. pose proof (Hback i Hsome) as Hm.
        rewrite (get_player_id_miss _ _ _ Hmiss), Hroster, Hm. reflexivity.
      * destruct (get_player_id E player_name s st) as [r st'] eqn:Heq.
        apply get_player_id_inv in Heq as (o & -> & Hr).
        simpl in H. injection H as ->.
        by destruct (resolution_none _ _ _ _ Hr) as (_ & ? & _).
      * destruct (get_player_id E player_name s st) as [r st'] eqn:Heq.
        apply get_player_id_inv in Heq as (o & -> & Hr).
        simpl in H. injection H as ->.
        by destruct (resolution_none _ _ _ _ Hr) as (_ & _ & ?).
    + intros e Hraise. rewrite (get_player_id_miss _ _ _ Hmiss), Hraise.
      unfold log. simpl. by rewrite <- app_assoc.
Qed.

End Resolver.

Lemma cache_ignores_season_witness :
  get_player_id healthy_env "Gerrit Cole" 2019
    {| cache_player_ids := <["Gerrit Cole" := 543037]> ∅; trace := [] |}
  = (Ok (Some 543037),
     {| cache_player_ids := <["Gerrit Cole" := 543037]> ∅; trace := [] |})
  /\
  get_player_id healthy_env "Zack Wheeler" 2019
    {| cache_player_ids := <["Zack Wheeler" := 554430]> ∅;
       trace := [EvRosterFetch 2025] |}
  = (Ok (Some 554430),
     {| cache_player_ids := <["Zack Wheeler" := 554430]> ∅;
        trace := [EvRosterFetch 2025] |}).
Proof.
  split.
  - apply (proj1 (cache_ignores_season healthy_env "Gerrit Cole" _)).
    reflexivity.
  - apply (proj2 (cache_ignores_season healthy_env "Zack Wheeler"
                    initial_state) 2025 2019).
    reflexivity.
Defined.

Lemma cache_gains_only_matches_witness :
  get_player_id empty_env "Shohei Ohtani" 2025 initial_state
  = (Ok None, log (EvRosterFetch 2025) initial_state) /\
  cache_player_ids (log (EvRosterFetch 2025) initial_state)
  = cache_player_ids initial_state.
Proof.
  split; [reflexivity|].
  apply (proj1 (cache_gains_only_matches empty_env "Shohei Ohtani" 2025
                  initial_state (log (EvRosterFetch 2025) initial_state)
                  (Ok None) eq_refl)).
  reflexivity.
Defined.

Lemma get_player_id_outcomes_witness :
  (exists i st',
     get_player_id healthy_env "Zack Wheeler" 2025 initial_state
     = (Ok (Some i), st')) /\
  get_player_id healthy_env "Shohei Ohtani" 2025 initial_state
  = (Ok None, log (EvRosterFetch 2025) initial_state) /\
  get_player_id offline_env "Zack Wheeler" 2025 initial_state
  = (Ok None,
     {| cache_player_ids := ∅;
        trace := [EvRosterFetch 2025;
                  EvPrint (MsgPlayerIdError "Zack Wheeler"
                             (ServiceError "connection refused"))] |}).
Proof.
  split; [|split].
  - destruct (proj2 (get_player_id_outcomes healthy_env "Zack Wheeler" 2025
                       initial_state) eq_refl) as (Hfound & _ & _).
    destruct (Hfound roster_2025 eq_refl) as (_ & _ & _ & i & _ & _ & _ & _ & H).
    + repeat constructor; by eexists.
    + exists {| fullName := Some "Zack Wheeler"; person_id := Some 554430 |}.
      split; [|reflexivity]. apply list_elem_of_In. right. left. reflexivity.
    + by eexists i, _.
  - destruct (proj2 (get_player_id_outcomes healthy_env "Shohei Ohtani" 2025
                       initial_state) eq_refl) as (_ & Habsent & _).
    apply (Habsent roster_2025 eq_refl).
    repeat constructor; eexists; (split; [reflexivity|discriminate]).
  - destruct (proj2 (get_player_id_outcomes offline_env "Zack Wheeler" 2025
                       initial_state) eq_refl) as (_ & _ & Herror).
    apply (Herror (ServiceError "connection refused") eq_refl).
Defined.

Lemma second_lookup_cached_after_match_witness :
  (exists st1,
     get_player_id healthy_env "Gerrit Cole" 2025 initial_state
     = (Ok (Some 543037), st1) /\
     get_player_id healthy_env "Gerrit Cole" 2025 st1
     = (Ok (Some 543037), st1) /\
     (roster_fetches (trace st1) <= 1)%nat).
Proof.
  eexists. split; [reflexivity|].
  destruct (second_lookup_cached_after_match healthy_env "Gerrit Cole"
              2025 2025 initial_state _ _ _ _ eq_refl eq_refl) as [H _].
  destruct (H 543037 eq_refl) as (_ & _ & Hle).
  split; [reflexivity|exact Hle].
Defined.

(** C2 as stated fails: when the first call finds no match nothing is
    cached, and the second call requests the roster again. *)
Lemma second_lookup_refetches_after_miss :
  ~ (roster_fetches
       (trace (snd (bind (get_player_id empty_env "Shohei Ohtani" 2025)
                      (fun _ => get_player_id empty_env "Shohei Ohtani" 2025)
                      initial_state))) <= 1)%nat.
Proof. vm_compute. lia. Qed.

(** ** Properties of the statistics retriever *)

Section Retriever.

Variable E : env.

(** One turn of the retry loop. *)
Lemma stats_attempts_cons (player_id s attempt : Z) (rest : list Z)
    (keys : option (list string)) (st : state) :
  stats_attempts E player_id s (attempt :: rest) keys st =
  let retry e keys' :=
    stats_attempts E player_id s rest keys'
      (log (EvSleep 2000)
         (log (EvPrint (MsgStatsError player_id (attempt + 1) e))
            (log (EvStatsRequest player_id s) st))) in
  match player_stat_data E (trace st) player_id s with
  | Raise e => retry e keys
  | Ok [] => retry IndexError keys
  | Ok (SplitOpaque :: _) => retry (AttributeError "get") (Some relevant_keys)
  | Ok (SplitStats stats :: _) =>
      (Ok (dict_of (fun key => dict_get stats key (VStr "")) relevant_keys),
       log (EvStatsRequest player_id s) st)
  end.
Proof.
  simpl. unfold call.
  destruct (player_stat_data E (trace st) player_id s) as [[|[stats|] ?]|e];
    reflexivity.
Qed.

(** The loop extends the trace by at most one request per attempt and
    leaves the cache alone. *)
Lemma stats_attempts_trace (player_id s : Z) (attempts : list Z)
    (keys : option (list string)) (st : state) :
  exists new,
    trace (snd (stats_attempts E player_id s attempts keys st))
    = trace st ++ new /\
    (stats_requests new <= List.length attempts)%nat /\
    cache_player_ids (snd (stats_attempts E player_id s attempts keys st))
    = cache_player_ids st.
Proof.
  revert keys st.
  induction attempts as [|attempt rest IH]; intros keys st.
  - exists []. simpl. destruct keys; simpl; rewrite app_nil_r; by repeat split.
  - rewrite stats_attempts_cons. cbv zeta.
    assert (forall e keys',
      exists new,
        trace (snd (stats_attempts E player_id s rest keys'
          (log (EvSleep 2000)
             (log (EvPrint (MsgStatsError player_id (attempt + 1) e))
                (log (EvStatsRequest player_id s) st)))))
        = trace st ++ new /\
        (stats_requests new <= S (List.length rest))%nat /\
        cache_player_ids (snd (stats_attempts E player_id s rest keys'
          (log (EvSleep 2000)
             (log (EvPrint (MsgStatsError player_id (attempt + 1) e))
                (log (EvStatsRequest player_id s) st)))))
        = cache_player_ids st) as Hretry.
    { intros e keys'.
      destruct (IH keys' (log (EvSleep 2000)
             (log (EvPrint (MsgStatsError player_id (attempt + 1) e))
                (log (EvStatsRequest player_id s) st)))) as (new & Ht & Hn & Hc).
      exists ([EvStatsRequest player_id s;
               EvPrint (MsgStatsError player_id (attempt + 1) e);
               EvSleep 2000] ++ new).
      rewrite Ht, Hc. simpl. repeat split.
      - by rewrite <- !app_assoc.
      - unfold stats_requests in *.
        change (EvStatsRequest player_id s
                  :: EvPrint (MsgStatsError player_id (attempt + 1) e)
                  :: EvSleep 2000 :: new)
          with ([EvStatsRequest player_id s;
                 EvPrint (MsgStatsError player_id (attempt + 1) e);
                 EvSleep 2000] ++ new).
        rewrite count_events_app. unfold count_events at 1. simpl. lia. }
    destruct (player_stat_data E (trace st) player_id s) as [[|[stats|] ?]|e];
      try apply Hretry.
    exists [EvStatsRequest player_id s]. simpl. repeat split.
    unfold stats_requests, count_events. simpl. lia.
Qed.

(** C8: the retry loop is bounded by the retry budget.  A call of
    [get_player_stats] returns, and the events it adds to the trace hold
    at most [retries] statistics requests (none when [retries] is not
    positive). *)
Theorem stats_requests_bounded (player_id s retries : Z) (st : state) :
  exists r st' new,
    get_player_stats E player_id s retries st = (r, st') /\
    trace st' = trace st ++ new /\
    (stats_requests new <= Z.to_nat retries)%nat.
Proof.
  unfold get_player_stats.
  destruct (stats_attempts_trace player_id s (range retries) None st)
    as (new & Ht & Hn & _).
  unfold range in Hn. rewrite length_seqZ in Hn.
  destruct (stats_attempts E player_id s (range retries) None st)
    as [r st'] eqn:Heq.
  exists r, st', new. repeat split; [exact Ht|exact Hn].
Qed.

(** With the default budget, as [process_game_data] calls it: at most
    three requests. *)
Lemma default_budget (player_id s : Z) (st : state) :
  exists new,
    trace (snd (get_player_stats E player_id s 3 st)) = trace st ++ new /\
    (stats_requests new <= 3)%nat.
Proof.
  destruct (stats_attempts_trace player_id s (range 3) None st)
    as (new & Ht & Hn & _).
  exists new. split; [exact Ht|exact Hn].
Qed.

(** When every attempt fails before [relevant_keys] is assigned, the
    variable is still unassigned when the loop ends. *)
Lemma stats_attempts_unbound (player_id s : Z) (attempts : list Z)
    (st : state) :
  (forall h, fails_early (player_stat_data E h player_id s)) ->
  fst (stats_attempts E player_id s attempts None st)
  = Raise (UnboundLocalError "relevant_keys").
Proof.
  intros Hfail. revert st.
  induction attempts as [|attempt rest IH]; intros st; [reflexivity|].
  rewrite stats_attempts_cons. cbv zeta.
  pose proof (Hfail (trace st)) as H.
  destruct (player_stat_data E (trace st) player_id s) as [[|? ?]|e];
    [apply IH|destruct H|apply IH].
Qed.

(** C1 fails on the code: when every attempt fails before the request's
    data has been read (the request raises, or [data['stats']] is empty),
    [get_player_stats] does not return the nine placeholders.  Its last
    line reads the local variable [relevant_keys], which is assigned only
    inside the [try] block after a successful request, and raises
    [UnboundLocalError]. *)
Theorem exhausted_retries_raise (player_id s retries : Z) (st : state) :
  (forall h, fails_early (player_stat_data E h player_id s)) ->
  fst (get_player_stats E player_id s retries st)
  = Raise (UnboundLocalError "relevant_keys").
Proof. intros H. unfold get_player_stats. by apply stats_attempts_unbound. Qed.

End Retriever.

Lemma exhausted_retries_raise_witness :
  fst (get_player_stats stats_down_env 543037 2025 3 initial_state)
  = Raise (UnboundLocalError "relevant_keys").
Proof.
  apply (exhausted_retries_raise stats_down_env 543037 2025 3 initial_state).
  intros h. exact I.
Defined.

(** ** Properties of the row assembler *)

Section Assembler.

Variable E : env.

Lemma stats_attempts_escapes (player_id s : Z) (attempts : list Z)
    (keys : option (list string)) (st : state) :
  escapes (fst (stats_attempts E player_id s attempts keys st)).
Proof.
  revert keys st.
  induction attempts as [|attempt rest IH]; intros keys st.
  - simpl. by destruct keys.
  - rewrite stats_attempts_cons. cbv zeta.
    destruct (player_stat_data E (trace st) player_id s) as [[|[stats|] ?]|e];
      try apply IH.
    exact I.
Qed.

(** The block of one side, case by case. *)
Lemma pitcher_stats_empty (st : state) :
  pitcher_stats E "" st = (Ok ∅, st).
Proof. reflexivity. Qed.

Lemma pitcher_stats_named (pitcher_name : string) (st : state) :
  pitcher_name <> "" ->
  exists o st1,
    get_player_id E pitcher_name season st = (Ok o, st1) /\
    pitcher_stats E pitcher_name st =
    match o with
    | None => (Ok ∅, st1)
    | Some i =>
        if decide (i = 0) then (Ok ∅, st1)
        else get_player_stats E i season 3 st1
    end.
Proof.
  intros Hne.
  destruct (get_player_id_resolution E pitcher_name season st)
    as (o & st1 & Hid & _).
  exists o, st1. split; [exact Hid|].
  unfold pitcher_stats. destruct (decide (pitcher_name = "")); [done|].
  unfold bind. rewrite Hid.
  destruct o as [i|]; [|reflexivity].
  destruct (decide (i = 0)); reflexivity.
Qed.

Lemma pitcher_stats_escapes (pitcher_name : string) (st : state) :
  escapes (fst (pitcher_stats E pitcher_name st)).
Proof.
  destruct (decide (pitcher_name = "")) as [->|Hne]; [exact I|].
  destruct (pitcher_stats_named pitcher_name st Hne) as (o & st1 & _ & ->).
  destruct o as [i|]; [|exact I].
  destruct (decide (i = 0)); [exact I|].
  apply stats_attempts_escapes.
Qed.

Lemma process_game_inv (g : game) (st st' : state) (row : list pyval) :
  process_game E g st = (Ok row, st') ->
  exists away_stats st1 home_stats,
    pitcher_stats E (default "" (away_probable_pitcher g)) st
    = (Ok away_stats, st1) /\
    pitcher_stats E (default "" (home_probable_pitcher g)) st1
    = (Ok home_stats, st') /\
    row = build_row g (default "" (away_probable_pitcher g))
            (default "" (home_probable_pitcher g)) away_stats home_stats.
Proof.
  unfold process_game, bind, ret.
  destruct (pitcher_stats E (default "" (away_probable_pitcher g)) st)
    as [[a|e] st1] eqn:Ha; [|discriminate].
  destruct (pitcher_stats E (default "" (home_probable_pitcher g)) st1)
    as [[h|e] st2] eqn:Hh; [|discriminate].
  intros [= <- <-]. by exists a, st1, h.
Qed.

Lemma process_game_escapes (g : game) (st : state) :
  escapes (fst (process_game E g st)).
Proof.
  unfold process_game, bind, ret.
  pose proof (pitcher_stats_escapes (default "" (away_probable_pitcher g)) st)
    as Ha.
  destruct (pitcher_stats E (default "" (away_probable_pitcher g)) st)
    as [[a|e] st1]; [|exact Ha].
  pose proof (pitcher_stats_escapes (default "" (home_probable_pitcher g)) st1)
    as Hh.
  destruct (pitcher_stats E (default "" (home_probable_pitcher g)) st1)
    as [[h|e] st2]; [exact I|exact Hh].
Qed.

(** The loop appends one row per game, in order, each produced by the loop
    body; it stops early only on the exception of [escapes]. *)
Lemma process_games_rows (games : list game) (data : list (list pyval))
    (st : state) :
  match fst (process_games E games data st) with
  | Ok rows =>
      exists new,
        rows = data ++ new /\
        Forall2 (fun g row => exists st0 st1,
                   process_game E g st0 = (Ok row, st1)) games new
  | Raise e => e = UnboundLocalError "relevant_keys"
  end.
Proof.
  revert data st.
  induction games as [|g rest IH]; intros data st; simpl.
  - exists []. split; [by rewrite app_nil_r|constructor].
  - unfold bind at 1.
    pose proof (process_game_escapes g st) as Hg.
    destruct (process_game E g st) as [[row|e] st1] eqn:Hrow; [|exact Hg].
    unfold bind, sleep, emit.
    specialize (IH (data ++ [row]) (log (EvSleep 500) st1)).
    destruct (fst (process_games E rest (data ++ [row])
                     (log (EvSleep 500) st1))) as [rows|e]; [|exact IH].
    destruct IH as (new & -> & Hnew).
    exists (row :: new). split; [by rewrite <- app_assoc|].
    constructor; [by exists st, st1|exact Hnew].
Qed.

(** C5: the positional layout of a row.  Whenever the loop body assembles
    a row for a game, the row has 23 fields: the game id, the two team
    names, the two pitcher names, then the away pitcher's and the home
    pitcher's nine metrics in the order ERA, WHIP, K/9, BB/9, H/9, R/9,
    HR/9, IP, GS.  [process_game_data] returns one such row per game, in
    order, unless the statistics retriever raises. *)
Theorem row_layout :
  (forall g st row st',
     process_game E g st = (Ok row, st') ->
     exists away_stats st1 home_stats,
       pitcher_stats E (default "" (away_probable_pitcher g)) st
       = (Ok away_stats, st1) /\
       pitcher_stats E (default "" (home_probable_pitcher g)) st1
       = (Ok home_stats, st') /\
       List.length row = 23%nat /\
       List.length row = List.length headers /\
       row =
       [ game_id g; away_name g; home_name g;
         VStr (default "" (away_probable_pitcher g));
         VStr (default "" (home_probable_pitcher g));
         dict_get away_stats "era" (VStr "");
         dict_get away_stats "whip" (VStr "");
         dict_get away_stats "strikeoutsPer9Inn" (VStr "");
         dict_get away_stats "walksPer9Inn" (VStr "");
         dict_get away_stats "hitsPer9Inn" (VStr "");
         dict_get away_stats "runsScoredPer9" (VStr "");
         dict_get away_stats "homeRunsPer9" (VStr "");
         dict_get away_stats "inningsPitched" (VStr "");
         dict_get away_stats "gamesStarted" (VStr "");
         dict_get home_stats "era" (VStr "");
         dict_get home_stats "whip" (VStr "");
         dict_get home_stats "strikeoutsPer9Inn" (VStr "");
         dict_get home_stats "walksPer9Inn" (VStr "");
         dict_get home_stats "hitsPer9Inn" (VStr "");
         dict_get home_stats "runsScoredPer9" (VStr "");
         dict_get home_stats "homeRunsPer9" (VStr "");
         dict_get home_stats "inningsPitched" (VStr "");
         dict_get home_stats "gamesStarted" (VStr "") ]) /\
  (forall games st,
     match fst (process_game_data E games st) with
     | Ok rows =>
         Forall2 (fun g row => exists st0 st1,
                    process_game E g st0 = (Ok row, st1)) games rows
     | Raise e => e = UnboundLocalError "relevant_keys"
     end).
Proof.
  split.
  - intros g st row st' H.
    apply process_game_inv in H as (a & st1 & h & Ha & Hh & ->).
    exists a, st1, h. repeat split; done.
  - intros games st. unfold process_game_data.
    pose proof (process_games_rows games [] st) as H.
    destruct (fst (process_games E games [] st)) as [rows|e]; [|exact H].
    destruct H as (new & -> & Hnew). exact Hnew.
Qed.

(** C4: an absent pitcher is skipped.  When the away pitcher name is
    absent, the away block returns the empty mapping without touching the
    cache or the trace (no resolver call, no retriever call), the work done
    for the game is that of the home block alone, and the nine away fields
    of the row are empty strings.  The same holds with the sides
    exchanged. *)
Theorem absent_pitcher_skipped (g : game) (st : state) :
  (absent (away_probable_pitcher g) ->
     pitcher_stats E (default "" (away_probable_pitcher g)) st = (Ok ∅, st) /\
     process_game E g st
     = bind (pitcher_stats E (default "" (home_probable_pitcher g)))
         (fun home_stats =>
            ret (build_row g "" (default "" (home_probable_pitcher g))
                   ∅ home_stats)) st /\
     (forall row st', process_game E g st = (Ok row, st') ->
        take 9 (drop 5 row) = replicate 9 (VStr ""))) /\
  (absent (home_probable_pitcher g) ->
     (forall st1,
        pitcher_stats E (default "" (home_probable_pitcher g)) st1
        = (Ok ∅, st1)) /\
     process_game E g st
     = bind (pitcher_stats E (default "" (away_probable_pitcher g)))
         (fun away_stats =>
            ret (build_row g (default "" (away_probable_pitcher g)) ""
                   away_stats ∅)) st /\
     (forall row st', process_game E g st = (Ok row, st') ->
        drop 14 row = replicate 9 (VStr ""))).
Proof.
  split; intros Habs.
  - assert (default "" (away_probable_pitcher g) = "") as Hname
      by (destruct Habs as [-> | ->]; reflexivity).
    assert (process_game E g st
            = bind (pitcher_stats E (default "" (home_probable_pitcher g)))
                (fun home_stats =>
                   ret (build_row g "" (default "" (home_probable_pitcher g))
                          ∅ home_stats)) st) as Hgame.
    { unfold process_game. rewrite Hname. reflexivity. }
    rewrite Hname. repeat split; [exact Hgame|].
    intros row st'. rewrite Hgame. unfold bind, ret.
    destruct (pitcher_stats E (default "" (home_probable_pitcher g)) st)
      as [[h|e] st1]; [|discriminate].
    intros [= <- <-]. reflexivity.
  - assert (default "" (home_probable_pitcher g) = "") as Hname
      by (destruct Habs as [-> | ->]; reflexivity).
    assert (process_game E g st
            = bind (pitcher_stats E (default "" (away_probable_pitcher g)))
                (fun away_stats =>
                   ret (build_row g (default "" (away_probable_pitcher g)) ""
                          away_stats ∅)) st) as Hgame.
    { unfold process_game. rewrite Hname. unfold bind.
      destruct (pitcher_stats E (default "" (away_probable_pitcher g)) st)
        as [[a|e] st1]; reflexivity. }
    rewrite Hname. repeat split; [exact Hgame|].
    intros row st'. rewrite Hgame. unfold bind, ret.
    destruct (pitcher_stats E (default "" (away_probable_pitcher g)) st)
      as [[a|e] st1]; [|discriminate].
    intros [= <- <-]. reflexivity.
Qed.

End Assembler.

(** The job on explicit inputs. *)

Example exhausted_retries_trace :
  get_player_stats stats_down_env 543037 2025 3 initial_state
  = (Raise (UnboundLocalError "relevant_keys"),
     {| cache_player_ids := ∅;
        trace :=
          [EvStatsRequest 543037 2025;
           EvPrint (MsgStatsError 543037 1 (ServiceError "connection refused"));
           EvSleep 2000;
           EvStatsRequest 543037 2025;
           EvPrint (MsgStatsError 543037 2 (ServiceError "connection refused"));
           EvSleep 2000;
           EvStatsRequest 543037 2025;
           EvPrint (MsgStatsError 543037 3 (ServiceError "connection refused"));
           EvSleep 2000] |}).
Proof. reflexivity. Qed.

(** Two failures followed by a served request: the third attempt returns
    the nine keys, with [""] for the metrics the service left out. *)
Example third_attempt_succeeds :
  get_player_stats flaky_env 543037 2025 3 initial_state
  = (Ok (dict_of (fun key => if decide (key = "era") then VStr "3.45"
                             else VStr "") relevant_keys),
     {| cache_player_ids := ∅;
        trace :=
          [EvStatsRequest 543037 2025;
           EvPrint (MsgStatsError 543037 1 (ServiceError "timed out"));
           EvSleep 2000;
           EvStatsRequest 543037 2025;
           EvPrint (MsgStatsError 543037 2 (ServiceError "timed out"));
           EvSleep 2000;
           EvStatsRequest 543037 2025] |}).
Proof. reflexivity. Qed.

(** A probable pitcher without statistics for the season stops the whole
    enrichment loop: the exception is not caught by [process_game_data]. *)
Example pitcher_without_stats_aborts :
  fst (process_game_data no_stats_env [opening_day] initial_state)
  = Raise (UnboundLocalError "relevant_keys").
Proof. reflexivity. Qed.

Example opening_day_row :
  fst (process_game healthy_env opening_day initial_state)
  = Ok [VInt 778563; VStr "Milwaukee Brewers"; VStr "New York Yankees";
        VStr "Zack Wheeler"; VStr "Gerrit Cole";
        VStr "3.45"; VStr ""; VStr ""; VStr ""; VStr ""; VStr ""; VStr "";
        VStr ""; VInt 12;
        VStr "3.45"; VStr ""; VStr ""; VStr ""; VStr ""; VStr ""; VStr "";
        VStr ""; VInt 12].
Proof. reflexivity. Qed.

Lemma row_layout_witness :
  exists row st',
    process_game healthy_env opening_day initial_state = (Ok row, st') /\
    List.length row = 23%nat /\
    row !! 5%nat = Some (VStr "3.45") /\
    row !! 22%nat = Some (VInt 12).
Proof.
  eexists _, _. split; [reflexivity|].
  destruct (proj1 (row_layout healthy_env) opening_day initial_state _ _ eq_refl)
    as (a & st1 & h & _ & _ & Hlen & _ & _).
  split; [exact Hlen|]. split; reflexivity.
Defined.

Lemma absent_pitcher_skipped_witness :
  (forall row st',
     process_game healthy_env away_unannounced initial_state = (Ok row, st') ->
     take 9 (drop 5 row) = replicate 9 (VStr "")) /\
  (forall row st',
     process_game healthy_env home_unannounced initial_state = (Ok row, st') ->
     drop 14 row = replicate 9 (VStr "")).
Proof.
  split.
  - apply (proj1 (absent_pitcher_skipped healthy_env away_unannounced
                    initial_state)).
    left. reflexivity.
  - apply (proj2 (absent_pitcher_skipped healthy_env home_unannounced
                    initial_state)).
    right. reflexivity.
Defined.

Example away_unannounced_row :
  process_game healthy_env away_unannounced initial_state
  = (Ok [VInt 778564; VStr "Milwaukee Brewers"; VStr "New York Yankees";
         VStr ""; VStr "Gerrit Cole";
         VStr ""; VStr ""; VStr ""; VStr ""; VStr ""; VStr ""; VStr "";
         VStr ""; VStr "";
         VStr "3.45"; VStr ""; VStr ""; VStr ""; VStr ""; VStr ""; VStr "";
         VStr ""; VInt 12],
     {| cache_player_ids := <["Gerrit Cole" := 543037]> ∅;
        trace := [EvRosterFetch 2025; EvStatsRequest 543037 2025] |}).
Proof. reflexivity. Qed.

(** ** Properties of the sheet writer *)

Lemma numeric_columns_positions : numeric_columns = drop 5 headers.
Proof. reflexivity. Qed.

(** The numeric columns are the columns 5 to 22 of the header. *)
Lemma numeric_position (c : nat) :
  (5 <= c < 23)%nat ->
  exists header, headers !! c = Some header /\ header ∈ numeric_columns.
Proof.
  intros Hc.
  destruct (lookup_lt_is_Some_2 numeric_columns (c - 5)) as [header Hh].
  { simpl. lia. }
  exists header. split.
  - rewrite numeric_columns_positions, lookup_drop in Hh.
    replace (5 + (c - 5))%nat with c in Hh by lia. exact Hh.
  - apply list_elem_of_lookup. by exists (c - 5)%nat.
Qed.

Lemma text_position (c : nat) (header : string) :
  (c < 5)%nat -> headers !! c = Some header -> header ∉ numeric_columns.
Proof.
  intros Hc Hh.
  do 5 (destruct c as [|c];
        [injection Hh as <-; intros Hin; apply list_elem_of_In in Hin;
         simpl in Hin; intuition discriminate|]).
  lia.
Qed.

Lemma widest_row (n : nat) (row0 : list pyval) (rest : list (list pyval)) :
  Forall (fun row => List.length row = n) (row0 :: rest) ->
  foldr (fun row w => Nat.max (List.length row) w) 0%nat (row0 :: rest) = n.
Proof.
  intros H. apply Forall_cons in H as [H0 Hrest]. simpl. rewrite H0.
  clear H0. induction Hrest as [|row rest' Hrow _ IH]; simpl; [lia|].
  rewrite Hrow. lia.
Qed.

Lemma pad_full_width (n : nat) (data : list (list pyval)) :
  Forall (fun row => List.length row = n) data ->
  map (fun row => row ++ replicate (n - List.length row) VNone) data = data.
Proof.
  induction 1 as [|row rest Hrow _ IH]; [reflexivity|].
  simpl. rewrite IH, Hrow, Nat.sub_diag. simpl. by rewrite app_nil_r.
Qed.

(** A frame whose rows have the width of the header is taken as it is. *)
Lemma DataFrame_full_width (data : list (list pyval)) (st : state) :
  Forall (fun row => List.length row = List.length headers) data ->
  DataFrame data st = (Ok data, st).
Proof.
  intros Hdata. unfold DataFrame.
  destruct data as [|row0 rest]; [reflexivity|].
  rewrite (widest_row _ _ _ Hdata).
  destruct (decide (List.length headers = List.length headers)); [|done].
  by rewrite (pad_full_width _ _ Hdata).
Qed.

Section Writer.

Variable E : env.

Lemma clear_google_sheet_range_run (st : state) :
  clear_google_sheet_range E st
  = (Ok tt,
     {| cache_player_ids := cache_player_ids st;
        trace := trace st
                 ++ [EvClear "nrsi_confidence!A:W";
                     EvPrint (clear_message (values_clear E (trace st)))] |}).
Proof.
  unfold clear_google_sheet_range, try_except, bind, call, print, emit, log.
  simpl. destruct (values_clear E (trace st)) as [[]|e]; simpl;
    by rewrite <- app_assoc.
Qed.

(** One run of the writer on rows of full width, once the service object
    is built: the events it adds, whatever the spreadsheet answers. *)
Lemma write_to_google_sheets_run (data : list (list pyval)) (st : state) :
  build_service E (trace st) = Ok tt ->
  Forall (fun row => List.length row = List.length headers) data ->
  let h1 := trace st ++ [EvBuildService] in
  let m1 := clear_message (values_clear E h1) in
  let h2 := h1 ++ [EvClear "nrsi_confidence!A:W"; EvPrint m1] in
  let m2 := update_message (values_update E h2 (sheet_values E data)) in
  write_to_google_sheets E data st
  = (Ok tt,
     {| cache_player_ids := cache_player_ids st;
        trace := h2 ++ [EvUpdate "nrsi_confidence!A1" (sheet_values E data);
                        EvPrint m2] |}).
Proof.
  intros Hbuild Hdata. cbv zeta.
  unfold write_to_google_sheets.
  unfold bind at 1. unfold call at 1. rewrite Hbuild.
  unfold bind at 1. rewrite clear_google_sheet_range_run.
  unfold bind at 1. rewrite (DataFrame_full_width data _ Hdata).
  unfold try_except, bind, call, print, emit, log. simpl.
  destruct (values_update E _ (sheet_values E data)) as [[]|e]; simpl;
    by rewrite <- app_assoc.
Qed.

(** C3, as the code has it: both spreadsheet calls are made once, each
    failure is printed and none is raised, retried or rolled back.  A
    failed range-write is the last action of the writer.  A failed
    range-clear is not: the writer goes on and makes the range-write
    call. *)
Theorem sheet_failures_logged (data : list (list pyval)) (st : state) :
  build_service E (trace st) = Ok tt ->
  Forall (fun row => List.length row = List.length headers) data ->
  exists m1 m2,
    write_to_google_sheets E data st
    = (Ok tt,
       {| cache_player_ids := cache_player_ids st;
          trace := trace st
                   ++ [EvBuildService;
                       EvClear "nrsi_confidence!A:W"; EvPrint m1;
                       EvUpdate "nrsi_confidence!A1" (sheet_values E data);
                       EvPrint m2] |}) /\
    m1 = clear_message (values_clear E (trace st ++ [EvBuildService])) /\
    m2 = update_message
           (values_update E
              (trace st ++ [EvBuildService; EvClear "nrsi_confidence!A:W";
                            EvPrint m1])
              (sheet_values E data)) /\
    (forall e, values_clear E (trace st ++ [EvBuildService]) = Raise e ->
       m1 = MsgClearFailed e) /\
    (forall e,
       values_update E
         (trace st ++ [EvBuildService; EvClear "nrsi_confidence!A:W";
                       EvPrint m1])
         (sheet_values E data) = Raise e ->
       m2 = MsgUpdateFailed e).
Proof.
  intros Hbuild Hdata.
  pose proof (write_to_google_sheets_run data st Hbuild Hdata) as Hrun.
  cbv zeta in Hrun. rewrite <- !app_assoc in Hrun. simpl in Hrun.
  eexists _, _. split; [exact Hrun|]. repeat split.
  - intros e ->. reflexivity.
  - intros e ->. reflexivity.
Qed.

Lemma column_elem (data : list (list pyval)) (r c : nat) (row : list pyval)
    (v : pyval) :
  data !! r = Some row -> row !! c = Some v -> v ∈ column c data.
Proof.
  intros Hrow Hv. unfold column. apply list_elem_of_fmap.
  exists row. split; [by rewrite Hv|]. by eapply list_elem_of_lookup_2.
Qed.

Lemma inferred_object_of_str (col : list pyval) (v : pyval) :
  v ∈ col -> is_str v = true -> inferred_dtype col = Object.
Proof.
  intros Hin Hstr. unfold inferred_dtype.
  destruct col as [|v0 col']; [reflexivity|].
  assert (existsb is_str (v0 :: col') = true) as ->; [|reflexivity].
  apply existsb_exists. exists v. split; [|exact Hstr].
  by apply list_elem_of_In.
Qed.

Lemma inferred_int64_cells (col : list pyval) (v : pyval) :
  inferred_dtype col = Int64 -> v ∈ col -> is_int v = true.
Proof.
  unfold inferred_dtype. destruct col as [|v0 col']; [discriminate|].
  destruct (existsb is_str (v0 :: col')); [discriminate|].
  destruct (forallb is_int (v0 :: col')) eqn:Hall.
  - intros _ Hin. eapply forallb_forall in Hall; [exact Hall|].
    by apply list_elem_of_In.
  - destruct (forallb is_none (v0 :: col')); discriminate.
Qed.

(** A cell of a numeric column whose value parses to a float. *)
Lemma converted_float_cell (header : string) (col : list pyval) (v : pyval)
    (x : float) :
  header ∈ numeric_columns ->
  v ∈ col ->
  number_of E v = NFloat x ->
  converted_cell E header col v = VFloat x.
Proof.
  intros Hnum Hin Hx. unfold converted_cell.
  destruct (inferred_dtype col) eqn:Ht.
  - pose proof (inferred_int64_cells col v Ht Hin) as Hint.
    destruct v; simpl in *; discriminate.
  - destruct v as [|n|y|s]; simpl in *; try congruence.
    rewrite (inferred_object_of_str col (VStr s) Hin eq_refl) in Ht.
    discriminate.
  - destruct (decide (header ∈ numeric_columns)); [|done].
    by rewrite Hx.
Qed.

(** C7: the numeric coercion, in the payload that is sent.  For rows of
    the width of the header, the range-write call carries, for the cell
    [v] of a data row under one of the 18 statistics columns: the float
    [v] parses to, or the empty string when [v] parses to NaN (a value
    that is not numeric, [None], the empty string).  A cell holding
    ["3.45"] is sent as the number 3.45 and a cell holding [""] is sent
    as [""]. *)
Theorem stat_cells_coerced (data : list (list pyval)) (st : state)
    (r c : nat) (row : list pyval) (v : pyval) :
  build_service E (trace st) = Ok tt ->
  Forall (fun row => List.length row = List.length headers) data ->
  data !! r = Some row ->
  row !! c = Some v ->
  (5 <= c < 23)%nat ->
  exists values row',
    EvUpdate "nrsi_confidence!A1" values
      ∈ trace (snd (write_to_google_sheets E data st)) /\
    values !! S r = Some row' /\
    (v = VStr "3.45" -> row' !! c = Some (VFloat 3.45)) /\
    (v = VStr "" -> row' !! c = Some (VStr "")) /\
    (forall x, number_of E v = NFloat x -> is_nan x = true ->
       row' !! c = Some (VStr "")) /\
    (forall x, number_of E v = NFloat x -> is_nan x = false ->
       row' !! c = Some (VFloat x)).
Proof.
  intros Hbuild Hdata Hrow Hv Hc.
  destruct (numeric_position c Hc) as (header & Hh & Hnum).
  pose proof (column_elem data r c row v Hrow Hv) as Hin.
  assert (forall x, number_of E v = NFloat x ->
          convert_row E data row !! c
          = Some (if is_nan x then VStr "" else VFloat x)) as Hcell.
  { intros x Hx. unfold convert_row.
    assert (zip (seq 0 (List.length headers)) headers !! c = Some (c, header))
      as Hzip.
    { apply lookup_zip_with_Some. exists c, header. repeat split; [|done].
      apply lookup_seq. simpl. lia. }
    rewrite lookup_zip_with, Hzip, Hv. simpl.
    unfold convert_cell.
    rewrite (converted_float_cell header (column c data) v x Hnum Hin Hx).
    by destruct (values_are_floats E data). }
  exists (sheet_values E data), (convert_row E data row).
  split; [|split; [|repeat split]].
  - rewrite (write_to_google_sheets_run data st Hbuild Hdata). simpl.
    apply list_elem_of_In, in_or_app. right. left. reflexivity.
  - unfold sheet_values. simpl. by rewrite list_lookup_fmap, Hrow.
  - intros ->. by rewrite (Hcell 3.45%float).
  - intros ->. by rewrite (Hcell nan).
  - intros x Hx Hnan. by rewrite (Hcell x Hx), Hnan.
  - intros x Hx Hnan. by rewrite (Hcell x Hx), Hnan.
Qed.

End Writer.

(** ** The whole job *)

Lemma process_game_data_width (E : env) (games : list game) (st st' : state)
    (rows : list (list pyval)) :
  process_game_data E games st = (Ok rows, st') ->
  Forall (fun row => List.length row = List.length headers) rows.
Proof.
  intros H. unfold process_game_data in H.
  pose proof (process_games_rows E games [] st) as Hrows.
  rewrite H in Hrows. simpl in Hrows. clear H.
  destruct Hrows as (new & -> & Hrows). simpl.
  induction Hrows as [|g row games' rows' (st0 & st1 & Hrow) _ IH].
  - constructor.
  - constructor; [|exact IH].
    apply process_game_inv in Hrow as (a & st2 & h & _ & _ & ->).
    reflexivity.
Qed.

(** When the schedule is served and the enrichment loop returns, the job
    ends with the writer, run on the rows of the loop. *)
Lemma main_run (E : env) (start_date end_date : string) (st st1 : state)
    (games : list game) (rows : list (list pyval)) :
  schedule E (trace st) start_date end_date = Ok games ->
  process_game_data E games (log (EvSchedule start_date end_date) st)
  = (Ok rows, st1) ->
  main E start_date end_date st = write_to_google_sheets E rows st1.
Proof.
  intros Hs Hp. unfold main, fetch_schedule, bind, call.
  rewrite Hs, Hp. reflexivity.
Qed.

Lemma sheet_failures_logged_witness :
  exists m1,
    write_to_google_sheets update_fails_env [] initial_state
    = (Ok tt,
       {| cache_player_ids := ∅;
          trace := [EvBuildService;
                    EvClear "nrsi_confidence!A:W"; EvPrint m1;
                    EvUpdate "nrsi_confidence!A1"
                      (sheet_values update_fails_env []);
                    EvPrint (MsgUpdateFailed (ServiceError "HttpError 403"))]
       |}).
Proof.
  destruct (sheet_failures_logged update_fails_env [] initial_state
              eq_refl (List.Forall_nil _))
    as (m1 & m2 & Hrun & _ & _ & _ & Hupdate).
  exists m1. rewrite Hrun.
  rewrite (Hupdate (ServiceError "HttpError 403") eq_refl). reflexivity.
Defined.

(** C3 as stated fails: after a failed range-clear the job still makes the
    range-write call. *)
Lemma write_follows_failed_clear :
  trace (snd (main clear_fails_env "03/27/2025" "03/28/2025" initial_state))
  = [EvSchedule "03/27/2025" "03/28/2025";
     EvBuildService;
     EvClear "nrsi_confidence!A:W";
     EvPrint (MsgClearFailed (ServiceError "HttpError 403"));
     EvUpdate "nrsi_confidence!A1" [map VStr headers];
     EvPrint MsgUpdated] /\
  ~ stops_after_failure
      (trace (snd (main clear_fails_env "03/27/2025" "03/28/2025"
                     initial_state))).
Proof. split; [reflexivity|]. vm_compute. discriminate. Qed.

Example failed_update_ends_job :
  main update_fails_env "03/27/2025" "03/28/2025" initial_state
  = (Ok tt,
     {| cache_player_ids := ∅;
        trace := [EvSchedule "03/27/2025" "03/28/2025";
                  EvBuildService;
                  EvClear "nrsi_confidence!A:W";
                  EvPrint MsgCleared;
                  EvUpdate "nrsi_confidence!A1" [map VStr headers];
                  EvPrint (MsgUpdateFailed (ServiceError "HttpError 403"))]
     |}).
Proof. reflexivity. Qed.


(** ** Further properties: accounting of events *)

Lemma count_events_none (p : event -> bool) (t : list event) :
  Forall (fun ev => p ev = false) t -> count_events p t = 0%nat.
Proof.
  unfold count_events. induction 1 as [|ev t Hev _ IH]; simpl; [reflexivity|].
  by rewrite Hev.
Qed.

Lemma grows_refl (st : state) : grows st st [].
Proof. split; [by rewrite app_nil_r|done]. Qed.

Lemma grows_trans (st st1 st2 : state) (new1 new2 : list event) :
  grows st st1 new1 -> grows st1 st2 new2 -> grows st st2 (new1 ++ new2).
Proof.
  intros [Ht1 Hc1] [Ht2 Hc2]. split.
  - by rewrite Ht2, Ht1, app_assoc.
  - by transitivity (cache_player_ids st1).
Qed.

Lemma grows_log (ev : event) (st : state) : grows st (log ev st) [ev].
Proof. split; done. Qed.

Lemma enrichment_within_nil : enrichment_within 0 0 [].
Proof.
  repeat split; unfold roster_fetches, stats_requests, count_events; simpl;
    lia.
Qed.

Lemma enrichment_within_app (r1 s1 r2 s2 : nat) (new1 new2 : list event) :
  enrichment_within r1 s1 new1 ->
  enrichment_within r2 s2 new2 ->
  enrichment_within (r1 + r2) (s1 + s2) (new1 ++ new2).
Proof.
  unfold enrichment_within, roster_fetches, stats_requests.
  intros (? & ? & ?) (? & ? & ?). rewrite !count_events_app. lia.
Qed.

Lemma enrichment_within_weaken (r s r' s' : nat) (new : list event) :
  (r <= r')%nat -> (s <= s')%nat ->
  enrichment_within r s new -> enrichment_within r' s' new.
Proof. unfold enrichment_within. intros ? ? (? & ? & ?). lia. Qed.

Lemma resolution_grows (player_name : string) (s : Z) (o : option Z)
    (st st' : state) :
  resolution player_name s st o st' ->
  exists new, grows st st' new /\ enrichment_within 1 0 new.
Proof.
  inversion 1; subst.
  - exists []. split; [apply grows_refl|].
    exact (enrichment_within_weaken 0 0 1 0 [] ltac:(lia) ltac:(lia)
             enrichment_within_nil).
  - exists [EvRosterFetch s]. split.
    + split; [done|]. simpl. by apply insert_subseteq.
    + by repeat split.
  - exists [EvRosterFetch s]. split; [apply grows_log|by repeat split].
  - exists [EvRosterFetch s; EvPrint (MsgPlayerIdError player_name e)].
    split.
    + split; [|done]. simpl. by rewrite <- app_assoc.
    + by repeat split.
Qed.

Section ResolverMore.

Variable E : env.

(** X1: a roster request is made exactly when the name is not in the
    cache, and then only one. *)
Theorem fetch_exactly_on_miss (player_name : string) (s : Z) (st : state) :
  roster_fetches (trace (snd (get_player_id E player_name s st)))
  = (roster_fetches (trace st)
     + match cache_player_ids st !! player_name with
       | Some _ => 0
       | None => 1
       end)%nat.
Proof.
  destruct (get_player_id_resolution E player_name s st)
    as (o & st' & Heq & Hr).
  rewrite Heq. simpl.
  destruct (cache_player_ids st !! player_name) as [i|] eqn:Hc.
  - inversion Hr; subst; try congruence. lia.
  - rewrite (resolution_miss_fetches _ _ _ _ _ Hc Hr). lia.
Qed.

Lemma match_player_raises (player_name : string)
    (before after : list player) (p : player) (st : state) :
  Forall (other_name player_name) before ->
  (fullName p = None ->
   match_player player_name (before ++ p :: after) st
   = (Raise (KeyError "fullName"), st)) /\
  (fullName p = Some player_name -> person_id p = None ->
   match_player player_name (before ++ p :: after) st
   = (Raise (KeyError "id"), st)).
Proof.
  intros Hbefore.
  induction Hbefore as [|q before [n [Hq Hne]] _ [IH1 IH2]]; simpl.
  - split.
    + intros ->. reflexivity.
    + intros -> ->. destruct (decide (player_name = player_name)); done.
  - rewrite Hq. destruct (decide (n = player_name)); [done|]. by split.
Qed.

(** X2: a malformed roster entry hides the entries behind it.  When the
    first entry that is not some other player lacks its name, or carries
    the wanted name but lacks its identifier, the [KeyError] is caught and
    printed, [None] is returned and nothing is cached, whatever the rest of
    the roster holds. *)
Theorem malformed_entry_gives_none (player_name : string) (s : Z)
    (st : state) (before after : list player) (p : player) :
  cache_player_ids st !! player_name = None ->
  sports_players E (trace st) s = Ok (before ++ p :: after) ->
  Forall (other_name player_name) before ->
  (fullName p = None ->
   get_player_id E player_name s st
   = (Ok None,
      {| cache_player_ids := cache_player_ids st;
         trace := trace st
                  ++ [EvRosterFetch s;
                      EvPrint (MsgPlayerIdError player_name
                                 (KeyError "fullName"))] |})) /\
  (fullName p = Some player_name -> person_id p = None ->
   get_player_id E player_name s st
   = (Ok None,
      {| cache_player_ids := cache_player_ids st;
         trace := trace st
                  ++ [EvRosterFetch s;
                      EvPrint (MsgPlayerIdError player_name
                                 (KeyError "id"))] |})).
Proof.
  intros Hmiss Hroster Hbefore.
  rewrite (get_player_id_miss E _ _ _ Hmiss), Hroster.
  destruct (match_player_raises player_name before after p
              (log (EvRosterFetch s) st) Hbefore) as [H1 H2].
  split.
  - intros Hp. rewrite (H1 Hp). unfold log. simpl. by rewrite <- app_assoc.
  - intros Hp Hi. rewrite (H2 Hp Hi). unfold log. simpl.
    by rewrite <- app_assoc.
Qed.

(** [get_player_id] only adds to the trace and to the cache. *)
Lemma get_player_id_grows (player_name : string) (s : Z) (st : state) :
  exists o st' new,
    get_player_id E player_name s st = (Ok o, st') /\
    grows st st' new /\ enrichment_within 1 0 new.
Proof.
  destruct (get_player_id_resolution E player_name s st)
    as (o & st' & Heq & Hr).
  destruct (resolution_grows _ _ _ _ _ Hr) as (new & Hg & Hw).
  by exists o, st', new.
Qed.

End ResolverMore.

(** ** Further properties of the statistics retriever *)

Lemma lookup_dict_of (f : string -> pyval) (keys : list string)
    (key : string) :
  dict_of f keys !! key = if decide (key ∈ keys) then Some (f key) else None.
Proof.
  unfold dict_of. induction keys as [|k keys IH]; simpl.
  - rewrite lookup_empty. destruct (decide (key ∈ [])) as [Hin|]; [|done].
    inversion Hin.
  - rewrite lookup_insert. destruct (decide (k = key)) as [->|Hne].
    + destruct (decide (key ∈ key :: keys)) as [|Hn]; [done|].
      destruct Hn. by left.
    + rewrite IH. destruct (decide (key ∈ keys)) as [Hin|Hn].
      * destruct (decide (key ∈ k :: keys)) as [|Hn']; [done|].
        destruct Hn'. by right.
      * destruct (decide (key ∈ k :: keys)) as [Hin'|]; [|done].
        apply elem_of_cons in Hin' as [->|Hin']; done.
Qed.

Lemma dom_dict_of (f : string -> pyval) (keys : list string) :
  dom (dict_of f keys) = (list_to_set keys : gset string).
Proof.
  unfold dict_of. rewrite dom_list_to_map_L. f_equal.
  induction keys as [|k keys IH]; simpl; [reflexivity|]. by f_equal.
Qed.

Section RetrieverMore.

Variable E : env.

(** What the retry loop adds to the trace. *)
Lemma stats_attempts_events (player_id s : Z) (attempts : list Z)
    (keys : option (list string)) (st : state) :
  exists new,
    trace (snd (stats_attempts E player_id s attempts keys st))
    = trace st ++ new /\
    cache_player_ids (snd (stats_attempts E player_id s attempts keys st))
    = cache_player_ids st /\
    Forall (fun ev => is_retriever_event ev = true) new /\
    count_events is_backoff new = count_events is_stats_error new /\
    (stats_requests new <= count_events is_backoff new + 1)%nat /\
    (forall e,
       fst (stats_attempts E player_id s attempts keys st) = Raise e ->
       stats_requests new = List.length attempts /\
       count_events is_backoff new = List.length attempts).
Proof.
  revert keys st.
  induction attempts as [|attempt rest IH]; intros keys st.
  - exists []. simpl. destruct keys; simpl; rewrite app_nil_r;
      repeat split; try done; unfold stats_requests, count_events; simpl; lia.
  - rewrite stats_attempts_cons. cbv zeta.
    assert (forall e keys',
      let r := stats_attempts E player_id s rest keys'
          (log (EvSleep 2000)
             (log (EvPrint (MsgStatsError player_id (attempt + 1) e))
                (log (EvStatsRequest player_id s) st))) in
      exists new,
        trace (snd r) = trace st ++ new /\
        cache_player_ids (snd r) = cache_player_ids st /\
        Forall (fun ev => is_retriever_event ev = true) new /\
        count_events is_backoff new = count_events is_stats_error new /\
        (stats_requests new <= count_events is_backoff new + 1)%nat /\
        (forall e', fst r = Raise e' ->
           stats_requests new = S (List.length rest) /\
           count_events is_backoff new = S (List.length rest))) as Hretry.
    { intros e keys'. cbv zeta.
      destruct (IH keys' (log (EvSleep 2000)
             (log (EvPrint (MsgStatsError player_id (attempt + 1) e))
                (log (EvStatsRequest player_id s) st))))
        as (new & Ht & Hc & Hall & Hbe & Hle & Hraise).
      exists ([EvStatsRequest player_id s;
               EvPrint (MsgStatsError player_id (attempt + 1) e);
               EvSleep 2000] ++ new).
      rewrite Ht, Hc. unfold stats_requests in *.
      rewrite !count_events_app.
      change (count_events is_backoff
                [EvStatsRequest player_id s;
                 EvPrint (MsgStatsError player_id (attempt + 1) e);
                 EvSleep 2000]) with 1%nat.
      change (count_events is_stats_error
                [EvStatsRequest player_id s;
                 EvPrint (MsgStatsError player_id (attempt + 1) e);
                 EvSleep 2000]) with 1%nat.
      change (count_events is_stats_request
                [EvStatsRequest player_id s;
                 EvPrint (MsgStatsError player_id (attempt + 1) e);
                 EvSleep 2000]) with 1%nat.
      repeat split.
      - simpl. by rewrite <- !app_assoc.
      - apply Forall_app. split; [|exact Hall]. by repeat constructor.
      - lia.
      - lia.
      - destruct (Hraise e' H). lia.
      - destruct (Hraise e' H). lia. }
    destruct (player_stat_data E (trace st) player_id s) as [[|[stats|] ?]|e];
      try apply Hretry.
    exists [EvStatsRequest player_id s]. simpl.
    repeat split; try done.
    by repeat constructor.
Qed.

(** An exhausted loop returns the placeholders or raises; a served
    request returns the service's values.  Either way the mapping is built
    over the nine keys. *)
Lemma stats_attempts_shape (player_id s : Z) (attempts : list Z)
    (keys : option (list string)) (st : state) (d : gmap string pyval) :
  keys = None \/ keys = Some relevant_keys ->
  fst (stats_attempts E player_id s attempts keys st) = Ok d ->
  exists f, d = dict_of f relevant_keys.
Proof.
  revert keys st.
  induction attempts as [|attempt rest IH]; intros keys st Hkeys.
  - simpl. destruct Hkeys as [-> | ->]; simpl; [discriminate|].
    intros [= <-]. by eexists.
  - rewrite stats_attempts_cons. cbv zeta.
    destruct (player_stat_data E (trace st) player_id s) as [[|[stats|] ?]|e];
      try (apply IH; tauto).
    simpl. intros [= <-]. by eexists.
Qed.

(** X3: a mapping returned by [get_player_stats] has the nine keys and no
    other, whatever the service sent. *)
Theorem returned_stats_have_nine_keys (player_id s retries : Z)
    (st st' : state) (d : gmap string pyval) :
  get_player_stats E player_id s retries st = (Ok d, st') ->
  (forall key, is_Some (d !! key) <-> key ∈ relevant_keys) /\
  size d = 9%nat.
Proof.
  intros H. unfold get_player_stats in H.
  destruct (stats_attempts_shape player_id s (range retries) None st d)
    as [f ->]; [by left|by rewrite H|].
  split.
  - intros key. rewrite lookup_dict_of.
    destruct (decide (key ∈ relevant_keys)) as [Hin|Hn].
    + split; [done|]. by eexists.
    + split; [|done]. by intros [? ?].
  - rewrite <- size_dom, dom_dict_of. reflexivity.
Qed.

(** X4: when the first request is served, [get_player_stats] returns at
    once, with one request and no wait.  Each of the nine keys is bound to
    the value of the first entry of [data['stats']], or to the empty string
    where that entry lacks the key. *)
Theorem first_attempt_served (player_id s retries : Z) (st : state)
    (stats : gmap string pyval) (others : list split) :
  0 < retries ->
  player_stat_data E (trace st) player_id s = Ok (SplitStats stats :: others) ->
  exists d,
    get_player_stats E player_id s retries st
    = (Ok d, log (EvStatsRequest player_id s) st) /\
    (forall key, key ∈ relevant_keys ->
       d !! key = Some (default (VStr "") (stats !! key))).
Proof.
  intros Hpos Hserved. unfold get_player_stats, range.
  rewrite (seqZ_cons 0 retries Hpos), stats_attempts_cons, Hserved.
  eexists. split; [reflexivity|].
  intros key Hin. rewrite lookup_dict_of.
  destruct (decide (key ∈ relevant_keys)); done.
Qed.

(** X5: every failed attempt is printed and followed by one two-second
    wait, the last one included.  When [get_player_stats] raises it has
    used its whole budget: [retries] requests and as many waits (none of
    either when [retries] is not positive). *)
Theorem failed_attempts_wait (player_id s retries : Z) (st : state) :
  exists new,
    trace (snd (get_player_stats E player_id s retries st)) = trace st ++ new /\
    count_events is_backoff new = count_events is_stats_error new /\
    (stats_requests new <= count_events is_backoff new + 1)%nat /\
    (forall e,
       fst (get_player_stats E player_id s retries st) = Raise e ->
       stats_requests new = Z.to_nat retries /\
       count_events is_backoff new = Z.to_nat retries).
Proof.
  unfold get_player_stats.
  destruct (stats_attempts_events player_id s (range retries) None st)
    as (new & Ht & _ & _ & Hbe & Hle & Hraise).
  exists new. repeat split; try done.
  - destruct (Hraise e H) as [Hn _]. unfold range in Hn.
    by rewrite length_seqZ in Hn.
  - destruct (Hraise e H) as [_ Hn]. unfold range in Hn.
    by rewrite length_seqZ in Hn.
Qed.

(** X6: [get_player_stats] leaves the identifier cache as it is and makes
    no roster request and no spreadsheet call. *)
Theorem retriever_keeps_cache (player_id s retries : Z) (st : state) :
  exists new,
    trace (snd (get_player_stats E player_id s retries st)) = trace st ++ new /\
    cache_player_ids (snd (get_player_stats E player_id s retries st))
    = cache_player_ids st /\
    roster_fetches new = 0%nat /\
    count_events is_sheet_call new = 0%nat.
Proof.
  unfold get_player_stats.
  destruct (stats_attempts_events player_id s (range retries) None st)
    as (new & Ht & Hc & Hall & _).
  exists new. repeat split; try done.
  - apply count_events_none. eapply Forall_impl; [exact Hall|].
    intros [] Hev; done.
  - apply count_events_none. eapply Forall_impl; [exact Hall|].
    intros [] Hev; done.
Qed.

End RetrieverMore.

(** ** Further properties of the row assembler *)

Lemma lookup_events_quiet (new : list event) :
  Forall (fun ev => is_lookup_event ev = true) new ->
  count_events is_pause new = 0%nat /\
  count_events is_sheet_call new = 0%nat.
Proof.
  intros Hall. split; apply count_events_none;
    (eapply Forall_impl; [exact Hall|]); intros [] Hev; try done.
  simpl in *. apply Z.eqb_eq in Hev as ->. reflexivity.
Qed.

Lemma resolution_lookup_events (player_name : string) (s : Z) (o : option Z)
    (st st' : state) (new : list event) :
  resolution player_name s st o st' ->
  trace st' = trace st ++ new ->
  Forall (fun ev => is_lookup_event ev = true) new.
Proof.
  inversion 1; subst; simpl; intros Ht.
  - rewrite <- (app_nil_r (trace st')) in Ht at 1.
    apply app_inv_head in Ht as <-. constructor.
  - apply app_inv_head in Ht as <-. by repeat constructor.
  - apply app_inv_head in Ht as <-. by repeat constructor.
  - rewrite <- app_assoc in Ht. apply app_inv_head in Ht as <-.
    by repeat constructor.
Qed.

Lemma retriever_event_lookup (ev : event) :
  is_retriever_event ev = true -> is_lookup_event ev = true.
Proof. destruct ev as [| | |[]| | | |]; simpl; done. Qed.

Section AssemblerMore.

Variable E : env.

Lemma get_player_stats_grows (player_id s : Z) (st : state) :
  exists new,
    grows st (snd (get_player_stats E player_id s 3 st)) new /\
    enrichment_within 0 3 new /\
    Forall (fun ev => is_lookup_event ev = true) new.
Proof.
  unfold get_player_stats.
  destruct (stats_attempts_events E player_id s (range 3) None st)
    as (new & Ht & Hc & Hall & _).
  destruct (stats_attempts_trace E player_id s (range 3) None st)
    as (new' & Ht' & Hn & _).
  rewrite Ht in Ht'. apply app_inv_head in Ht' as <-.
  assert (Forall (fun ev => is_lookup_event ev = true) new) as Hlookup.
  { eapply Forall_impl; [exact Hall|]. exact retriever_event_lookup. }
  exists new. split; [|split; [|exact Hlookup]].
  - split; [exact Ht|by rewrite Hc].
  - unfold enrichment_within, roster_fetches. split; [|split].
    + rewrite count_events_none; [lia|].
      eapply Forall_impl; [exact Hall|]. intros [] Hev; done.
    + unfold range in Hn. rewrite length_seqZ in Hn. exact Hn.
    + exact (proj2 (lookup_events_quiet new Hlookup)).
Qed.

(** The block of one side adds at most one roster request and three
    statistics requests, and keeps the cache entries. *)
Lemma pitcher_stats_grows (pitcher_name : string) (st : state) :
  exists new,
    grows st (snd (pitcher_stats E pitcher_name st)) new /\
    enrichment_within 1 3 new /\
    Forall (fun ev => is_lookup_event ev = true) new.
Proof.
  destruct (decide (pitcher_name = "")) as [->|Hne].
  - exists []. rewrite pitcher_stats_empty. simpl.
    split; [apply grows_refl|]. split; [|constructor].
    exact (enrichment_within_weaken 0 0 1 3 [] ltac:(lia) ltac:(lia)
             enrichment_within_nil).
  - destruct (pitcher_stats_named E pitcher_name st Hne)
      as (o & st1 & Hid & ->).
    apply get_player_id_inv in Hid as (o' & [= <-] & Hr).
    destruct (resolution_grows _ _ _ _ _ Hr) as (new1 & Hg1 & Hw1).
    pose proof (resolution_lookup_events _ _ _ _ _ new1 Hr (proj1 Hg1))
      as Hl1.
    assert (exists new, grows st st1 new /\ enrichment_within 1 3 new /\
              Forall (fun ev => is_lookup_event ev = true) new) as Hskip.
    { exists new1. split; [exact Hg1|]. split; [|exact Hl1].
      eapply enrichment_within_weaken; [| |exact Hw1]; lia. }
    destruct o as [i|]; [|exact Hskip].
    destruct (decide (i = 0)); [exact Hskip|].
    destruct (get_player_stats_grows i season st1) as (new2 & Hg2 & Hw2 & Hl2).
    exists (new1 ++ new2). split; [exact (grows_trans _ _ _ _ _ Hg1 Hg2)|].
    split; [exact (enrichment_within_app 1 0 0 3 _ _ Hw1 Hw2)|].
    apply Forall_app. by split.
Qed.

Lemma process_game_grows (g : game) (st : state) :
  exists new,
    grows st (snd (process_game E g st)) new /\
    enrichment_within 2 6 new /\
    Forall (fun ev => is_lookup_event ev = true) new.
Proof.
  unfold process_game, bind, ret.
  destruct (pitcher_stats_grows (default "" (away_probable_pitcher g)) st)
    as (new1 & Hg1 & Hw1 & Hl1).
  destruct (pitcher_stats E (default "" (away_probable_pitcher g)) st)
    as [[a|e] st1]; simpl in Hg1.
  - destruct (pitcher_stats_grows (default "" (home_probable_pitcher g)) st1)
      as (new2 & Hg2 & Hw2 & Hl2).
    exists (new1 ++ new2).
    assert (grows st
              (snd (pitcher_stats E (default "" (home_probable_pitcher g)) st1))
              (new1 ++ new2)) as Hg
      by exact (grows_trans _ _ _ _ _ Hg1 Hg2).
    destruct (pitcher_stats E (default "" (home_probable_pitcher g)) st1)
      as [[h|e] st2]; simpl in *;
      (split; [exact Hg|]);
      (split; [exact (enrichment_within_app 1 3 1 3 _ _ Hw1 Hw2)|]);
      apply Forall_app; by split.
  - exists new1. simpl. split; [exact Hg1|]. split; [|exact Hl1].
    exact (enrichment_within_weaken 1 3 2 6 new1 ltac:(lia) ltac:(lia) Hw1).
Qed.

(** The loop over [n] games adds at most [2 * n] roster requests and
    [6 * n] statistics requests, keeps the cache entries, and pauses once
    after each game it completes. *)
Lemma process_games_grows (games : list game) (data : list (list pyval))
    (st : state) :
  exists new,
    grows st (snd (process_games E games data st)) new /\
    enrichment_within (2 * List.length games) (6 * List.length games) new /\
    (forall rows, fst (process_games E games data st) = Ok rows ->
       count_events is_pause new = List.length games /\
       List.length rows = (List.length data + List.length games)%nat).
Proof.
  revert data st.
  induction games as [|g rest IH]; intros data st.
  - exists []. simpl. split; [apply grows_refl|].
    split; [exact enrichment_within_nil|].
    intros rows [= <-]. split; [reflexivity|lia].
  - simpl process_games. unfold bind, sleep, emit.
    destruct (process_game_grows g st) as (new1 & Hg1 & Hw1 & Hl1).
    destruct (process_game E g st) as [[row|e] st1]; simpl in Hg1.
    + destruct (IH (data ++ [row]) (log (EvSleep 500) st1))
        as (new2 & Hg2 & Hw2 & Hok).
      exists (new1 ++ [EvSleep 500] ++ new2). split; [|split].
      * eapply grows_trans; [exact Hg1|].
        eapply grows_trans; [apply grows_log|exact Hg2].
      * replace (2 * List.length (g :: rest))%nat
          with (2 + (0 + 2 * List.length rest))%nat by (simpl; lia).
        replace (6 * List.length (g :: rest))%nat
          with (6 + (0 + 6 * List.length rest))%nat by (simpl; lia).
        apply enrichment_within_app; [exact Hw1|].
        apply enrichment_within_app; [by repeat split|exact Hw2].
      * intros rows Hrows. destruct (Hok rows Hrows) as [Hp Hlen].
        rewrite !count_events_app, Hp.
        rewrite (proj1 (lookup_events_quiet new1 Hl1)).
        rewrite length_app in Hlen. simpl in *. split; [reflexivity|lia].
    + exists new1. simpl. split; [exact Hg1|]. split; [|discriminate].
      eapply enrichment_within_weaken; [| |exact Hw1]; simpl; lia.
Qed.

(** X7: the cost of the enrichment.  For [n] games [process_game_data]
    makes at most [2 * n] roster requests and [6 * n] statistics requests
    and no spreadsheet call; when it returns, it returns [n] rows and has
    paused half a second [n] times. *)
Theorem enrichment_budget (games : list game) (st : state) :
  exists new,
    trace (snd (process_game_data E games st)) = trace st ++ new /\
    (roster_fetches new <= 2 * List.length games)%nat /\
    (stats_requests new <= 6 * List.length games)%nat /\
    count_events is_sheet_call new = 0%nat /\
    (forall rows, fst (process_game_data E games st) = Ok rows ->
       List.length rows = List.length games /\
       count_events is_pause new = List.length games).
Proof.
  unfold process_game_data.
  destruct (process_games_grows games [] st)
    as (new & [Ht _] & (Hr & Hs & Hsheet) & Hok).
  exists new. repeat split; try done.
  - destruct (Hok rows H) as [_ Hlen]. exact Hlen.
  - destruct (Hok rows H) as [Hp _]. exact Hp.
Qed.

(** X8: an identifier, once cached, stays as it is: no step of the
    enrichment removes or replaces a cache entry. *)
Theorem cached_identifiers_kept (games : list game) (st : state)
    (player_name : string) (i : Z) :
  cache_player_ids st !! player_name = Some i ->
  cache_player_ids (snd (process_game_data E games st)) !! player_name
  = Some i.
Proof.
  intros Hc. unfold process_game_data.
  destruct (process_games_grows games [] st) as (new & [_ Hsub] & _).
  exact (lookup_weaken _ _ _ _ Hc Hsub).
Qed.

(** X9: a named pitcher who cannot be resolved is skipped.  When the
    resolver returns [None] or the identifier [0], the side's block makes
    no statistics request and yields the empty mapping, so the nine fields
    of that side are empty strings and the game still gets its row. *)
Theorem unresolved_pitcher_skipped (pitcher_name : string) (st st1 : state)
    (o : option Z) :
  pitcher_name <> "" ->
  get_player_id E pitcher_name season st = (Ok o, st1) ->
  o = None \/ o = Some 0 ->
  pitcher_stats E pitcher_name st = (Ok ∅, st1) /\
  stats_requests (trace st1) = stats_requests (trace st) /\
  map (fun key => dict_get ∅ key (VStr "")) relevant_keys
  = replicate 9 (VStr "").
Proof.
  intros Hne Hid Ho.
  destruct (pitcher_stats_named E pitcher_name st Hne)
    as (o' & st1' & Hid' & Hps).
  rewrite Hid in Hid'. injection Hid' as <- <-.
  split; [|split; [|reflexivity]].
  - rewrite Hps. destruct Ho as [-> | ->]; reflexivity.
  - apply get_player_id_inv in Hid as (o' & [= <-] & Hr).
    destruct (resolution_grows _ _ _ _ _ Hr) as (new & [Ht _] & (_ & Hs & _)).
    rewrite Ht. unfold stats_requests in *. rewrite count_events_app. lia.
Qed.

End AssemblerMore.

(** ** Further properties of the sheet writer *)

Lemma fillna_not_missing (v : pyval) : is_missing (fillna v) = false.
Proof.
  destruct v as [|n|x|s]; simpl; try reflexivity.
  destruct (is_nan x) eqn:Hx; simpl; [reflexivity|exact Hx].
Qed.

(** X10: the written payload is rectangular.  For rows of the width of
    the header it holds the header row followed by one row per data row,
    each of 23 cells. *)
Theorem payload_rectangular (E : env) (data : list (list pyval)) :
  Forall (fun row => List.length row = List.length headers) data ->
  sheet_values E data !! 0%nat = Some (map VStr headers) /\
  List.length (sheet_values E data) = S (List.length data) /\
  Forall (fun row => List.length row = 23%nat) (sheet_values E data).
Proof.
  intros Hdata. unfold sheet_values. repeat split.
  - simpl. by rewrite length_map.
  - constructor; [reflexivity|].
    apply Forall_fmap. eapply Forall_impl; [exact Hdata|].
    intros row Hrow. simpl.
    unfold convert_row. rewrite length_zip_with, Hrow. reflexivity.
Qed.

(** X11: the payload never holds a missing value: no cell of it is [None]
    or NaN, whatever the rows hold and whatever pandas parses. *)
Theorem payload_has_no_missing_value (E : env) (data : list (list pyval)) :
  Forall (Forall (fun v => is_missing v = false)) (sheet_values E data).
Proof.
  unfold sheet_values. constructor.
  - apply Forall_fmap. apply Forall_true. intros h. reflexivity.
  - apply Forall_fmap. apply Forall_true. intros row. simpl.
    apply Forall_lookup. intros c cell Hcell.
    unfold convert_row in Hcell.
    apply lookup_zip_with_Some in Hcell as (h & v & -> & _ & _).
    apply fillna_not_missing.
Qed.

(** ** Further properties of the whole job *)

Lemma write_build_fails (E : env) (data : list (list pyval)) (st : state)
    (e : exn) :
  build_service E (trace st) = Raise e ->
  write_to_google_sheets E data st = (Raise e, log EvBuildService st).
Proof.
  intros H. unfold write_to_google_sheets. unfold bind at 1. unfold call.
  by rewrite H.
Qed.

(** The ways [main] can end. *)
Lemma main_outcome (E : env) (start_date end_date : string) (st : state) :
  exists new,
    trace (snd (main E start_date end_date st)) = trace st ++ new /\
    match fst (main E start_date end_date st) with
    | Raise _ => count_events is_sheet_call new = 0%nat
    | Ok _ =>
        exists games rows pre m1 m2,
          schedule E (trace st) start_date end_date = Ok games /\
          List.length rows = List.length games /\
          count_events is_sheet_call pre = 0%nat /\
          new = EvSchedule start_date end_date :: pre
                ++ [EvBuildService;
                    EvClear "nrsi_confidence!A:W"; EvPrint m1;
                    EvUpdate "nrsi_confidence!A1" (sheet_values E rows);
                    EvPrint m2]
    end.
Proof.
  destruct (schedule E (trace st) start_date end_date) as [games|e] eqn:Hs.
  - set (st0 := log (EvSchedule start_date end_date) st).
    destruct (process_games_grows E games [] st0)
      as (pre & [Ht _] & (_ & _ & Hsheet) & Hok).
    fold (process_game_data E games st0) in Ht, Hok.
    destruct (process_game_data E games st0) as [[rows|e] st1] eqn:Hp.
    + rewrite (main_run E _ _ st st1 games rows Hs Hp).
      simpl in Ht. destruct (Hok rows eq_refl) as [_ Hlen]. simpl in Hlen.
      destruct (build_service E (trace st1)) as [[]|e] eqn:Hb.
      * pose proof (write_to_google_sheets_run E rows st1 Hb
                      (process_game_data_width E games st0 st1 rows Hp))
          as Hw.
        cbv zeta in Hw. rewrite Hw. simpl.
        eexists. split.
        { rewrite Ht. unfold st0. simpl. rewrite <- !app_assoc. simpl.
          reflexivity. }
        exists games, rows, pre. eexists _, _. repeat split; done.
      * rewrite (write_build_fails E rows st1 e Hb). simpl.
        exists (EvSchedule start_date end_date :: pre ++ [EvBuildService]).
        split.
        { rewrite Ht. unfold st0. simpl. by rewrite <- !app_assoc. }
        change (EvSchedule start_date end_date :: pre ++ [EvBuildService])
          with ([EvSchedule start_date end_date] ++ pre ++ [EvBuildService]).
        rewrite !count_events_app, Hsheet. reflexivity.
    + assert (main E start_date end_date st = (Raise e, st1)) as ->.
      { unfold main, fetch_schedule, bind, call. fold st0.
        by rewrite Hs, Hp. }
      simpl in *. exists (EvSchedule start_date end_date :: pre). split.
      { rewrite Ht. unfold st0. simpl. by rewrite <- !app_assoc. }
      change (EvSchedule start_date end_date :: pre)
        with ([EvSchedule start_date end_date] ++ pre).
      rewrite count_events_app, Hsheet. reflexivity.
  - assert (main E start_date end_date st
            = (Raise e, log (EvSchedule start_date end_date) st)) as ->.
    { unfold main, fetch_schedule, bind, call. by rewrite Hs. }
    exists [EvSchedule start_date end_date]. by split.
Qed.

(** X12: a job that ends with an exception has not touched the
    spreadsheet: whenever [main] raises, neither the range-clear nor the
    range-write call was made. *)
Theorem failed_job_leaves_sheet_untouched (E : env)
    (start_date end_date : string) (st : state) (e : exn) :
  fst (main E start_date end_date st) = Raise e ->
  exists new,
    trace (snd (main E start_date end_date st)) = trace st ++ new /\
    count_events is_sheet_call new = 0%nat.
Proof.
  intros Hraise.
  destruct (main_outcome E start_date end_date st) as (new & Ht & Hcase).
  rewrite Hraise in Hcase. by exists new.
Qed.

(** X13: a job that returns has cleared the range once and then written
    once, after all lookups; the payload has the header row and one row
    per scheduled game. *)
Theorem completed_job_writes_once (E : env) (start_date end_date : string)
    (st : state) (u : unit) :
  fst (main E start_date end_date st) = Ok u ->
  exists games rows pre m1 m2,
    schedule E (trace st) start_date end_date = Ok games /\
    List.length (sheet_values E rows) = S (List.length games) /\
    count_events is_sheet_call pre = 0%nat /\
    trace (snd (main E start_date end_date st))
    = trace st
      ++ EvSchedule start_date end_date :: pre
      ++ [EvBuildService;
          EvClear "nrsi_confidence!A:W"; EvPrint m1;
          EvUpdate "nrsi_confidence!A1" (sheet_values E rows);
          EvPrint m2].
Proof.
  intros Hok.
  destruct (main_outcome E start_date end_date st) as (new & Ht & Hcase).
  rewrite Hok in Hcase.
  destruct Hcase as (games & rows & pre & m1 & m2 & Hs & Hlen & Hpre & ->).
  exists games, rows, pre, m1, m2. repeat split; try done.
  unfold sheet_values. simpl. by rewrite length_map, Hlen.
Qed.

(** X14: three failures are not caught.  An exception of the schedule
    request, of the enrichment loop, or of building the spreadsheet client
    leaves [main] as it was raised, and nothing is done after it. *)
Theorem uncaught_failures (E : env) (start_date end_date : string)
    (st : state) (e : exn) :
  (schedule E (trace st) start_date end_date = Raise e ->
   main E start_date end_date st
   = (Raise e, log (EvSchedule start_date end_date) st)) /\
  (forall games st1,
     schedule E (trace st) start_date end_date = Ok games ->
     process_game_data E games (log (EvSchedule start_date end_date) st)
     = (Raise e, st1) ->
     main E start_date end_date st = (Raise e, st1)) /\
  (forall games rows st1,
     schedule E (trace st) start_date end_date = Ok games ->
     process_game_data E games (log (EvSchedule start_date end_date) st)
     = (Ok rows, st1) ->
     build_service E (trace st1) = Raise e ->
     main E start_date end_date st = (Raise e, log EvBuildService st1)).
Proof.
  repeat split.
  - intros Hs. unfold main, fetch_schedule, bind, call. by rewrite Hs.
  - intros games st1 Hs Hp. unfold main, fetch_schedule, bind, call.
    by rewrite Hs, Hp.
  - intros games rows st1 Hs Hp Hb.
    rewrite (main_run E _ _ st st1 games rows Hs Hp).
    by apply write_build_fails.
Qed.

(** ** Properties of the date entry *)

(** X15: [get_valid_date] returns the conversion of the first line that
    converts.  Each line before it is answered with the error message and
    a new prompt; the lines after it are left unread. *)
Theorem first_valid_date_wins (convert : string -> option string)
    (prompt : string) (rejected : list string) (line date : string)
    (rest : list string) :
  Forall (fun l => convert l = None) rejected ->
  convert line = Some date ->
  get_valid_date convert prompt (rejected ++ line :: rest)
  = (DateEntered date rest,
     rejections prompt rejected
     ++ [ConsoleInput (String.append prompt " (DD/MM/YYYY): ")]).
Proof.
  intros Hrej Hline.
  induction Hrej as [|l rejected Hl _ IH]; simpl.
  - by rewrite Hline.
  - by rewrite Hl, IH.
Qed.

(** X16: when no line converts, every line is rejected and the loop ends
    only with the input: [input] raises [EOFError] at the prompt that
    follows the last line. *)
Theorem no_valid_date_ends_input (convert : string -> option string)
    (prompt : string) (stdin : list string) :
  Forall (fun l => convert l = None) stdin ->
  get_valid_date convert prompt stdin
  = (EndOfInput,
     rejections prompt stdin
     ++ [ConsoleInput (String.append prompt " (DD/MM/YYYY): ")]).
Proof.
  induction 1 as [|l stdin Hl _ IH]; simpl; [reflexivity|].
  by rewrite Hl, IH.
Qed.

(** X17: the two dates are read one after the other from the same input:
    the start date is the first line that converts, the end date the next
    line that converts after it.  No relation between the two dates is
    asked for. *)
Theorem dates_read_in_order (convert : string -> option string)
    (rejected1 rejected2 : list string) (line1 line2 date1 date2 : string)
    (rest : list string) :
  Forall (fun l => convert l = None) rejected1 ->
  convert line1 = Some date1 ->
  Forall (fun l => convert l = None) rejected2 ->
  convert line2 = Some date2 ->
  enter_dates convert (rejected1 ++ line1 :: rejected2 ++ line2 :: rest)
  = (Some (date1, date2, rest),
     (rejections "Enter the start date" rejected1
      ++ [ConsoleInput "Enter the start date (DD/MM/YYYY): "])
     ++ rejections "Enter the end date" rejected2
     ++ [ConsoleInput "Enter the end date (DD/MM/YYYY): "]).
Proof.
  intros H1 Hl1 H2 Hl2. unfold enter_dates.
  induction H1 as [|l rejected1 Hl _ IH]; simpl.
  - rewrite Hl1.
    induction H2 as [|l rejected2 Hl _ IH]; simpl.
    + by rewrite Hl2.
    + rewrite Hl.
      destruct (get_valid_date convert "Enter the end date"
                  (rejected2 ++ line2 :: rest)) as [[d u|] c];
        by inversion IH.
  - rewrite Hl.
    destruct (get_valid_date convert "Enter the start date"
                (rejected1 ++ line1 :: rejected2 ++ line2 :: rest))
      as [[d u|] c]; [|discriminate].
    destruct (get_valid_date convert "Enter the end date" u) as [[d' u'|] c'];
      by inversion IH.
Qed.

(** ** The further properties on explicit inputs *)

Lemma malformed_entry_gives_none_witness :
  get_player_id nameless_entry_env "Gerrit Cole" 2025 initial_state
  = (Ok None,
     {| cache_player_ids := ∅;
        trace := [EvRosterFetch 2025;
                  EvPrint (MsgPlayerIdError "Gerrit Cole"
                             (KeyError "fullName"))] |}) /\
  get_player_id no_identifier_env "Gerrit Cole" 2025 initial_state
  = (Ok None,
     {| cache_player_ids := ∅;
        trace := [EvRosterFetch 2025;
                  EvPrint (MsgPlayerIdError "Gerrit Cole"
                             (KeyError "id"))] |}).
Proof.
  split.
  - apply (proj1 (malformed_entry_gives_none nameless_entry_env "Gerrit Cole"
                    2025 initial_state []
                    roster_2025
                    {| fullName := None; person_id := Some 660271 |}
                    eq_refl eq_refl (List.Forall_nil _))).
    reflexivity.
  - apply (proj2 (malformed_entry_gives_none no_identifier_env "Gerrit Cole"
                    2025 initial_state
                    [ {| fullName := Some "Zack Wheeler";
                         person_id := Some 554430 |} ]
                    [ {| fullName := Some "Gerrit Cole";
                         person_id := Some 543037 |} ]
                    {| fullName := Some "Gerrit Cole"; person_id := None |}
                    eq_refl eq_refl
                    ltac:(repeat constructor; eexists;
                          (split; [reflexivity|discriminate])))).
    + reflexivity.
    + reflexivity.
Defined.

Lemma returned_stats_have_nine_keys_witness :
  match fst (get_player_stats healthy_env 543037 2025 3 initial_state) with
  | Ok d => size d = 9%nat
  | Raise _ => False
  end.
Proof.
  destruct (get_player_stats healthy_env 543037 2025 3 initial_state)
    as [[d|e] st'] eqn:H; simpl.
  - apply (returned_stats_have_nine_keys healthy_env 543037 2025 3
             initial_state st' d H).
  - vm_compute in H. discriminate.
Defined.

Lemma first_attempt_served_witness :
  exists d,
    get_player_stats healthy_env 543037 2025 3 initial_state
    = (Ok d, log (EvStatsRequest 543037 2025) initial_state) /\
    d !! "era" = Some (VStr "3.45") /\
    d !! "whip" = Some (VStr "").
Proof.
  destruct (first_attempt_served healthy_env 543037 2025 3 initial_state
              (<["era" := VStr "3.45"]> (<["gamesStarted" := VInt 12]> ∅)) []
              ltac:(lia) eq_refl) as (d & Hrun & Hkeys).
  exists d. split; [exact Hrun|]. split.
  - rewrite (Hkeys "era"); [reflexivity|].
    apply list_elem_of_In. simpl. tauto.
  - rewrite (Hkeys "whip"); [reflexivity|].
    apply list_elem_of_In. simpl. tauto.
Defined.

Lemma failed_attempts_wait_witness :
  exists new,
    trace (snd (get_player_stats stats_down_env 543037 2025 3 initial_state))
    = new /\
    stats_requests new = 3%nat /\ count_events is_backoff new = 3%nat.
Proof.
  destruct (failed_attempts_wait stats_down_env 543037 2025 3 initial_state)
    as (new & Ht & _ & _ & Hraise).
  exists new. split; [exact Ht|].
  exact (Hraise (UnboundLocalError "relevant_keys") eq_refl).
Defined.

Lemma enrichment_budget_witness :
  exists new,
    trace (snd (process_game_data two_games_env
                  [opening_day; away_unannounced] initial_state)) = new /\
    (roster_fetches new <= 4)%nat /\
    (stats_requests new <= 12)%nat /\
    count_events is_pause new = 2%nat.
Proof.
  destruct (enrichment_budget two_games_env [opening_day; away_unannounced]
              initial_state) as (new & Ht & Hr & Hs & _ & Hok).
  exists new. split; [exact Ht|]. split; [exact Hr|]. split; [exact Hs|].
  exact (proj2 (Hok _ eq_refl)).
Defined.

Lemma cached_identifiers_kept_witness :
  cache_player_ids
    (snd (process_game_data two_games_env [opening_day; away_unannounced]
            {| cache_player_ids := <["Gerrit Cole" := 1]> ∅; trace := [] |}))
  !! "Gerrit Cole" = Some 1.
Proof.
  apply (cached_identifiers_kept two_games_env
           [opening_day; away_unannounced]
           {| cache_player_ids := <["Gerrit Cole" := 1]> ∅; trace := [] |}
           "Gerrit Cole" 1).
  reflexivity.
Defined.

Lemma unresolved_pitcher_skipped_witness :
  pitcher_stats healthy_env "Shohei Ohtani" initial_state
  = (Ok ∅, log (EvRosterFetch 2025) initial_state).
Proof.
  apply (unresolved_pitcher_skipped healthy_env "Shohei Ohtani"
           initial_state (log (EvRosterFetch 2025) initial_state) None).
  - discriminate.
  - reflexivity.
  - left. reflexivity.
Defined.

Lemma payload_rectangular_witness :
  List.length (sheet_values healthy_env [sample_row]) = 2%nat /\
  Forall (fun row => List.length row = 23%nat)
         (sheet_values healthy_env [sample_row]).
Proof.
  apply (payload_rectangular healthy_env [sample_row]).
  repeat constructor.
Defined.

Lemma failed_job_leaves_sheet_untouched_witness :
  exists new,
    trace (snd (main debut_env "03/27/2025" "03/28/2025" initial_state)) = new /\
    count_events is_sheet_call new = 0%nat.
Proof.
  apply (failed_job_leaves_sheet_untouched debut_env "03/27/2025" "03/28/2025"
           initial_state (UnboundLocalError "relevant_keys")).
  reflexivity.
Defined.

Lemma completed_job_writes_once_witness :
  exists games rows pre m1 m2,
    schedule two_games_env [] "03/27/2025" "03/28/2025" = Ok games /\
    List.length (sheet_values two_games_env rows) = S (List.length games) /\
    count_events is_sheet_call pre = 0%nat /\
    trace (snd (main two_games_env "03/27/2025" "03/28/2025" initial_state))
    = [] ++ EvSchedule "03/27/2025" "03/28/2025" :: pre
      ++ [EvBuildService;
          EvClear "nrsi_confidence!A:W"; EvPrint m1;
          EvUpdate "nrsi_confidence!A1" (sheet_values two_games_env rows);
          EvPrint m2].
Proof.
  apply (completed_job_writes_once two_games_env "03/27/2025" "03/28/2025"
           initial_state tt).
  reflexivity.
Defined.

Lemma uncaught_failures_witness :
  main schedule_down_env "03/27/2025" "03/28/2025" initial_state
  = (Raise (ServiceError "connection refused"),
     log (EvSchedule "03/27/2025" "03/28/2025") initial_state) /\
  fst (main debut_env "03/27/2025" "03/28/2025" initial_state)
  = Raise (UnboundLocalError "relevant_keys") /\
  main no_credentials_env "03/27/2025" "03/28/2025" initial_state
  = (Raise (ServiceError "FileNotFoundError"),
     log EvBuildService
       (log (EvSchedule "03/27/2025" "03/28/2025") initial_state)).
Proof.
  split; [|split].
  - apply (proj1 (uncaught_failures schedule_down_env "03/27/2025"
                    "03/28/2025" initial_state
                    (ServiceError "connection refused"))).
    reflexivity.
  - destruct (uncaught_failures debut_env "03/27/2025" "03/28/2025"
                initial_state (UnboundLocalError "relevant_keys"))
      as (_ & Hloop & _).
    rewrite (Hloop [opening_day]
               (snd (process_game_data debut_env [opening_day]
                       (log (EvSchedule "03/27/2025" "03/28/2025")
                            initial_state)))
               eq_refl eq_refl).
    reflexivity.
  - destruct (uncaught_failures no_credentials_env "03/27/2025" "03/28/2025"
                initial_state (ServiceError "FileNotFoundError"))
      as (_ & _ & Hbuild).
    apply (Hbuild [] [] _ eq_refl eq_refl eq_refl).
Defined.

Lemma first_valid_date_wins_witness :
  get_valid_date example_convert "Enter the start date"
    ["27-03-2025"; "2025/03/27"; "27/03/2025"; "28/03/2025"]
  = (DateEntered "03/27/2025" ["28/03/2025"],
     [ConsoleInput "Enter the start date (DD/MM/YYYY): "; ConsoleInvalid;
      ConsoleInput "Enter the start date (DD/MM/YYYY): "; ConsoleInvalid;
      ConsoleInput "Enter the start date (DD/MM/YYYY): "]).
Proof.
  apply (first_valid_date_wins example_convert "Enter the start date"
           ["27-03-2025"; "2025/03/27"] "27/03/2025" "03/27/2025"
           ["28/03/2025"]).
  - repeat constructor.
  - reflexivity.
Defined.

Lemma no_valid_date_ends_input_witness :
  get_valid_date example_convert "Enter the end date" ["tomorrow"]
  = (EndOfInput,
     [ConsoleInput "Enter the end date (DD/MM/YYYY): "; ConsoleInvalid;
      ConsoleInput "Enter the end date (DD/MM/YYYY): "]).
Proof.
  apply (no_valid_date_ends_input example_convert "Enter the end date"
           ["tomorrow"]).
  repeat constructor.
Defined.

Lemma dates_read_in_order_witness :
  enter_dates example_convert ["28/03/2025"; "soon"; "27/03/2025"]
  = (Some ("03/28/2025", "03/27/2025", []),
     [ConsoleInput "Enter the start date (DD/MM/YYYY): ";
      ConsoleInput "Enter the end date (DD/MM/YYYY): "; ConsoleInvalid;
      ConsoleInput "Enter the end date (DD/MM/YYYY): "]).
Proof.
  apply (dates_read_in_order example_convert [] ["soon"]
           "28/03/2025" "27/03/2025" "03/28/2025" "03/27/2025" []).
  - constructor.
  - reflexivity.
  - repeat constructor.
  - reflexivity.
Defined.

(** C6 as stated fails: the roster lists the name with an identifier, yet
    [None] is returned, because an earlier entry with the same name has no
    identifier and the [KeyError] ends the search. *)
Lemma listed_player_not_returned :
  sports_players no_identifier_env [] 2025
  = Ok [ {| fullName := Some "Zack Wheeler"; person_id := Some 554430 |};
         {| fullName := Some "Gerrit Cole"; person_id := None |};
         {| fullName := Some "Gerrit Cole"; person_id := Some 543037 |} ] /\
  fst (get_player_id no_identifier_env "Gerrit Cole" 2025 initial_state)
  = Ok None /\
  ~ (exists i,
       fst (get_player_id no_identifier_env "Gerrit Cole" 2025 initial_state)
       = Ok (Some i)).
Proof.
  split; [reflexivity|]. split; [reflexivity|].
  intros [i H]. vm_compute in H. discriminate.
Qed.

Lemma get_player_id_first_match_witness :
  fst (get_player_id healthy_env "Zack Wheeler" 2025 initial_state)
  = Ok (Some 554430) /\
  get_player_id offline_env "Zack Wheeler" 2025 initial_state
  = (Ok None,
     {| cache_player_ids := ∅;
        trace := [EvRosterFetch 2025;
                  EvPrint (MsgPlayerIdError "Zack Wheeler"
                             (ServiceError "connection refused"))] |}).
Proof.
  split.
  - destruct (proj2 (get_player_id_first_match healthy_env "Zack Wheeler"
                       2025 initial_state) eq_refl) as [Hroster _].
    destruct (Hroster roster_2025 eq_refl) as (Hiff & _ & _).
    apply (proj2 (Hiff 554430)).
    exists [ {| fullName := Some "Gerrit Cole"; person_id := Some 543037 |} ],
           {| fullName := Some "Zack Wheeler"; person_id := Some 554430 |},
           [].
    repeat split.
    repeat constructor. eexists; (split; [reflexivity|discriminate]).
  - destruct (proj2 (get_player_id_first_match offline_env "Zack Wheeler"
                       2025 initial_state) eq_refl) as [_ Herror].
    apply (Herror (ServiceError "connection refused") eq_refl).
Defined.

Lemma stat_cells_coerced_witness :
  (exists values row',
     EvUpdate "nrsi_confidence!A1" values
       ∈ trace (snd (write_to_google_sheets healthy_env [sample_row]
                       initial_state)) /\
     values !! 1%nat = Some row' /\
     row' !! 5%nat = Some (VFloat 3.45)) /\
  (exists (values : list (list pyval)) (row' : list pyval),
     values !! 1%nat = Some row' /\ row' !! 6%nat = Some (VStr "")) /\
  (exists (values : list (list pyval)) (row' : list pyval),
     values !! 1%nat = Some row' /\ row' !! 14%nat = Some (VStr "")).
Proof.
  split; [|split].
  - destruct (stat_cells_coerced healthy_env [sample_row] initial_state
                0 5 sample_row (VStr "3.45") eq_refl
                ltac:(repeat constructor) eq_refl eq_refl ltac:(lia))
      as (values & row' & Hsent & Hrow & H345 & _).
    exists values, row'. split; [exact Hsent|]. split; [exact Hrow|].
    exact (H345 eq_refl).
  - destruct (stat_cells_coerced healthy_env [sample_row] initial_state
                0 6 sample_row (VStr "") eq_refl
                ltac:(repeat constructor) eq_refl eq_refl ltac:(lia))
      as (values & row' & _ & Hrow & _ & Hblank & _).
    exists values, row'. split; [exact Hrow|exact (Hblank eq_refl)].
  - destruct (stat_cells_coerced healthy_env [sample_row] initial_state
                0 14 sample_row (VStr "-.--") eq_refl
                ltac:(repeat constructor) eq_refl eq_refl ltac:(lia))
      as (values & row' & _ & Hrow & _ & _ & Hnan & _).
    exists values, row'. split; [exact Hrow|].
    exact (Hnan nan eq_refl eq_refl).
Defined.

(** The payload of one row: the ERA is a float, the starts stay integers
    (their column holds integers only), and the cells that do not parse
    are empty. *)
Example sample_payload :
  sheet_values healthy_env [sample_row]
  = [map VStr headers;
     [VInt 778563; VStr "Milwaukee Brewers"; VStr "New York Yankees";
      VStr "Zack Wheeler"; VStr "Gerrit Cole";
      VFloat 3.45; VStr ""; VStr ""; VStr ""; VStr ""; VStr ""; VStr "";
      VStr ""; VInt 12;
      VStr ""; VStr ""; VStr ""; VStr ""; VStr ""; VStr ""; VStr "";
      VStr ""; VInt 0]].
Proof. reflexivity. Qed.
